(** * SQL310 inventory system: the repository, the ledger queries and the
      value report over a relational store

    The Python sources (crud_operations.py, database.py, reports.py) drive an
    SQLite store through SQL text.  The embedding keeps that shape:

    - the four tables are lists of rows, in insertion order, together with
      the AUTOINCREMENT counters of their surrogate keys;
    - a connection carries the store and the cursor attributes the code
      reads back ([lastrowid], [rowcount]) plus the number of statements
      handed to [cursor.execute];
    - every method is a computation in a small state-and-exception monad;
      [try ... except Exception] is [try_except];
    - every SQL statement is translated clause by clause: LEFT JOIN,
      WHERE, GROUP BY, HAVING, the aggregates SUM / AVG / COUNT with their
      NULL results on empty input, COALESCE, ORDER BY, LIMIT and LIKE.

    Modelling conventions.  INTEGER columns are [Z] (the 64-bit range of the
    engine is not represented), REAL columns and Python floats are exact
    rationals [Q] (rounding is not represented), TEXT columns are [string]
    (characters are the 8-bit characters of [Ascii]), a nullable column is an
    [option].  The [date] column of inventory_transactions, which the engine
    fills from its clock and which none of the queries below reads, is left
    out of the row type. *)

From Stdlib Require Import ZArith QArith List String Ascii Bool Lia.
From Stdlib Require Import Sorting.Sorted Sorting.Permutation.
Import ListNotations.

Local Open Scope string_scope.
Local Open Scope list_scope.
Local Open Scope Z_scope.

(** ** Rows and tables (database.py, create_tables) *)

Record category := mk_category {
  cat_id : Z;                          (* id INTEGER PRIMARY KEY AUTOINCREMENT *)
  cat_name : string;                   (* name TEXT NOT NULL UNIQUE *)
  cat_description : option string      (* description TEXT *)
}.

Record supplier := mk_supplier {
  sup_id : Z;
  sup_name : string;                   (* name TEXT NOT NULL *)
  sup_contact_info : option string;
  sup_address : option string
}.

Record product := mk_product {
  prod_id : Z;
  prod_name : string;                  (* name TEXT NOT NULL *)
  prod_description : option string;    (* description TEXT *)
  prod_category_id : option Z;         (* category_id INTEGER REFERENCES categories (id) *)
  prod_price : Q;                      (* price REAL NOT NULL *)
  prod_reorder_level : Z               (* reorder_level INTEGER DEFAULT 10 *)
}.

Record transaction := mk_transaction {
  tx_id : Z;
  tx_product_id : Z;                   (* product_id INTEGER NOT NULL REFERENCES products (id) *)
  tx_transaction_type : string;        (* TEXT NOT NULL CHECK (... IN ('IN','OUT','ADJUSTMENT')) *)
  tx_quantity : Z;                     (* quantity INTEGER NOT NULL *)
  tx_supplier_id : option Z;           (* supplier_id INTEGER REFERENCES suppliers (id) *)
  tx_notes : option string
}.

Record db := mk_db {
  categories : list category;
  suppliers : list supplier;
  products : list product;
  inventory_transactions : list transaction;
  (* sqlite_sequence: the largest key handed out so far, per table *)
  seq_categories : Z;
  seq_suppliers : Z;
  seq_products : Z;
  seq_transactions : Z
}.

(** The store right after [create_tables] on a new file. *)
Definition empty_db : db := mk_db [] [] [] [] 0 0 0 0.

(** ** SQL values and aggregates *)

Module Sql.

(** [COALESCE(x, d)] with a non-NULL second argument. *)
Definition coalesce {A} (x : option A) (d : A) : A :=
  match x with Some v => v | None => d end.

(** [SUM] over an INTEGER expression: NULL inputs are skipped and the
  result is NULL when no non-NULL input was seen. *)
Fixpoint sum (l : list (option Z)) : option Z :=
  match l with
  | [] => None
  | None :: r => sum r
  | Some v :: r => Some (v + coalesce (sum r) 0)
  end.

(** [SUM] and [AVG] over a REAL expression that is never NULL. *)
Definition total (l : list Q) : Q := fold_right Qplus 0%Q l.

Definition sum_real (l : list Q) : option Q :=
  match l with [] => None | _ => Some (total l) end.

Definition avg (l : list Q) : option Q :=
  match l with
  | [] => None
  | _ => Some (total l / inject_Z (Z.of_nat (List.length l)))%Q
  end.

(** [COUNT( * )]. *)
Definition count_star {A} (l : list A) : Z := Z.of_nat (List.length l).

(** [x = y] on a nullable INTEGER and a value, as a WHERE / ON condition:
  NULL compares to nothing. *)
Definition eq_opt (x : option Z) (y : Z) : bool :=
  match x with Some v => v =? y | None => false end.

(** [a LEFT JOIN b ON cond]: every left row paired with each matching
  right row, or with NULLs when none matches. *)
Definition left_join {A B} (on : A -> B -> bool) (l : list A) (r : list B)
  : list (A * option B) :=
  flat_map (fun a =>
              match filter (on a) r with
              | [] => [(a, None)]
              | ms => map (fun b => (a, Some b)) ms
              end) l.

(** [GROUP BY]: the rows are partitioned by the boolean relation [same]
  on their grouping columns, each group keeping its rows in input
  order.  A row opens a new group in front when no group has its key. *)
Section Group.
Context {A : Type} (same : A -> A -> bool).

Definition in_group (x : A) (g : list A) : bool :=
  match g with y :: _ => same x y | [] => false end.

Definition add_row (x : A) (gs : list (list A)) : list (list A) :=
  if existsb (in_group x) gs
  then map (fun g => if in_group x g then x :: g else g) gs
  else [x] :: gs.

Definition group_by (l : list A) : list (list A) :=
  fold_right add_row [] l.
End Group.

(** [ORDER BY]: a stable insertion sort along the boolean order [leb]. *)
Section Order.
Context {A : Type} (leb : A -> A -> bool).

Fixpoint insert_sorted (x : A) (l : list A) : list A :=
  match l with
  | [] => [x]
  | y :: r => if leb x y then x :: l else y :: insert_sorted x r
  end.

Definition order_by (l : list A) : list A :=
  fold_right insert_sorted [] l.
End Order.

(** [LIMIT n]. *)
Definition limit {A} (n : nat) (l : list A) : list A := firstn n l.

End Sql.

(** Grouping compares nullable columns with NULL equal to NULL. *)
Definition opt_eqb {A} (eqb : A -> A -> bool) (x y : option A) : bool :=
  match x, y with
  | Some a, Some b => eqb a b
  | None, None => true
  | _, _ => false
  end.

(** ** Connection, cursor and the exception monad *)

Inductive exn :=
| IntegrityError (constraint : string)   (* raised by the engine *)
| ValueError (msg : string).             (* raised by the repository *)

Record conn := mk_conn {
  store : db;
  lastrowid : Z;       (* cursor.lastrowid *)
  rowcount : Z;        (* cursor.rowcount *)
  executed : nat       (* statements handed to cursor.execute so far *)
}.

Definition connect (d : db) : conn := mk_conn d 0 (-1) 0.

Inductive outcome (A : Type) :=
| Return (a : A)
| Raise (e : exn).
Arguments Return {A} a.
Arguments Raise {A} e.

Definition M (A : Type) : Type := conn -> outcome A * conn.

Definition ret {A} (a : A) : M A := fun c => (Return a, c).

Definition bind {A B} (m : M A) (k : A -> M B) : M B :=
  fun c => match m c with
           | (Return a, c') => k a c'
           | (Raise e, c') => (Raise e, c')
           end.

Definition raise {A} (e : exn) : M A := fun c => (Raise e, c).

(** [try: body except Exception as e: handler]. *)
Definition try_except {A} (body : M A) (handler : exn -> M A) : M A :=
  fun c => match body c with
           | (Return a, c') => (Return a, c')
           | (Raise e, c') => handler e c'
           end.

Notation "x <- m ;; k" := (bind m (fun x => k))
  (at level 61, m at next level, right associativity).
Notation "m ;;; k" := (bind m (fun _ => k))
  (at level 61, right associativity).

(** A data-changing statement either fails with an engine error, leaving the
    tables as they were, or yields the new tables with the key of the row it
    inserted (if any) and the number of rows it changed. *)
Record effect := mk_effect {
  eff_db : db;
  eff_lastrowid : option Z;
  eff_rowcount : Z
}.

Definition execute (stmt : db -> exn + effect) : M unit :=
  fun c =>
    match stmt (store c) with
    | inl e => (Raise e, mk_conn (store c) (lastrowid c) (rowcount c) (S (executed c)))
    | inr f => (Return tt,
                mk_conn (eff_db f)
                        (Sql.coalesce (eff_lastrowid f) (lastrowid c))
                        (eff_rowcount f)
                        (S (executed c)))
    end.

(** [cursor.execute(SELECT ...)] followed by the fetch. *)
Definition execute_query {A} (q : db -> A) : M A :=
  fun c => (Return (q (store c)),
            mk_conn (store c) (lastrowid c) (-1) (S (executed c))).

(** [conn.commit()]: one connection, every statement already applied. *)
Definition commit : M unit := ret tt.

Definition get_lastrowid : M Z := fun c => (Return (lastrowid c), c).
Definition get_rowcount : M Z := fun c => (Return (rowcount c), c).

(** ** The data-changing statements, with the constraints of the schema

    PRAGMA foreign_keys = ON is set by [connect], so a child key must be
    NULL or name an existing parent row, and a parent row that is still
    referenced cannot be deleted. *)

Definition has_category (d : db) (k : Z) : bool :=
  existsb (fun c => cat_id c =? k) (categories d).
Definition has_supplier (d : db) (k : Z) : bool :=
  existsb (fun s => sup_id s =? k) (suppliers d).
Definition has_product (d : db) (k : Z) : bool :=
  existsb (fun p => prod_id p =? k) (products d).
Definition has_transaction (d : db) (k : Z) : bool :=
  existsb (fun t => tx_id t =? k) (inventory_transactions d).

(** A nullable foreign key: NULL, or the key of an existing parent row. *)
Definition fk_ok (has : Z -> bool) (k : option Z) : bool :=
  match k with Some v => has v | None => true end.

(** CHECK (transaction_type IN ('IN', 'OUT', 'ADJUSTMENT')), which is also
    the membership test the repository makes on its own. *)
Definition valid_transaction_type (ty : string) : bool :=
  existsb (String.eqb ty) ["IN"; "OUT"; "ADJUSTMENT"].

Definition set_categories (d : db) (l : list category) (s : Z) : db :=
  mk_db l (suppliers d) (products d) (inventory_transactions d)
        s (seq_suppliers d) (seq_products d) (seq_transactions d).
Definition set_suppliers (d : db) (l : list supplier) (s : Z) : db :=
  mk_db (categories d) l (products d) (inventory_transactions d)
        (seq_categories d) s (seq_products d) (seq_transactions d).
Definition set_products (d : db) (l : list product) (s : Z) : db :=
  mk_db (categories d) (suppliers d) l (inventory_transactions d)
        (seq_categories d) (seq_suppliers d) s (seq_transactions d).
Definition set_transactions (d : db) (l : list transaction) (s : Z) : db :=
  mk_db (categories d) (suppliers d) (products d) l
        (seq_categories d) (seq_suppliers d) (seq_products d) s.

(** INSERT INTO categories (name, description) VALUES (?, ?) *)
Definition insert_category (name : string) (description : option string)
           (d : db) : exn + effect :=
  if existsb (fun c => String.eqb (cat_name c) name) (categories d)
  then inl (IntegrityError "UNIQUE constraint failed: categories.name")
  else
    let k := seq_categories d + 1 in
    inr (mk_effect
           (set_categories d (categories d ++ [mk_category k name description]) k)
           (Some k) 1).

(** INSERT INTO suppliers (name, contact_info, address) VALUES (?, ?, ?) *)
Definition insert_supplier (name : string) (contact_info address : option string)
           (d : db) : exn + effect :=
  let k := seq_suppliers d + 1 in
  inr (mk_effect
         (set_suppliers d (suppliers d ++ [mk_supplier k name contact_info address]) k)
         (Some k) 1).

(** INSERT INTO products (name, description, category_id, price,
    reorder_level) VALUES (?, ?, ?, ?, ?) *)
Definition insert_product (name : string) (description : option string)
           (category_id : option Z) (price : Q) (reorder_level : Z)
           (d : db) : exn + effect :=
  if fk_ok (has_category d) category_id
  then
    let k := seq_products d + 1 in
    inr (mk_effect
           (set_products d
              (products d ++ [mk_product k name description category_id price reorder_level]) k)
           (Some k) 1)
  else inl (IntegrityError "FOREIGN KEY constraint failed").

(** INSERT INTO inventory_transactions (product_id, transaction_type,
    quantity, supplier_id, notes) VALUES (?, ?, ?, ?, ?) *)
Definition insert_transaction (product_id : Z) (transaction_type : string)
           (quantity : Z) (supplier_id : option Z) (notes : option string)
           (d : db) : exn + effect :=
  if negb (valid_transaction_type transaction_type)
  then inl (IntegrityError "CHECK constraint failed: transaction_type")
  else if has_product d product_id && fk_ok (has_supplier d) supplier_id
  then
    let k := seq_transactions d + 1 in
    inr (mk_effect
           (set_transactions d
              (inventory_transactions d
                 ++ [mk_transaction k product_id transaction_type quantity supplier_id notes]) k)
           (Some k) 1)
  else inl (IntegrityError "FOREIGN KEY constraint failed").

(** UPDATE ... SET ... WHERE id = ?: the rows with that key are replaced and
    counted. *)
Definition update_where {A} (key : A -> Z) (k : Z) (f : A -> A) (l : list A) : list A :=
  map (fun r => if key r =? k then f r else r) l.
Definition count_where {A} (cond : A -> bool) (l : list A) : Z :=
  Sql.count_star (filter cond l).

(** UPDATE categories SET name = ?, description = ? WHERE id = ? *)
Definition update_category_stmt (category_id : Z) (name : string)
           (description : option string) (d : db) : exn + effect :=
  if has_category d category_id
     && existsb (fun c => String.eqb (cat_name c) name && negb (cat_id c =? category_id))
                (categories d)
  then inl (IntegrityError "UNIQUE constraint failed: categories.name")
  else
    inr (mk_effect
           (set_categories d
              (update_where cat_id category_id
                 (fun c => mk_category (cat_id c) name description) (categories d))
              (seq_categories d))
           None (count_where (fun c => cat_id c =? category_id) (categories d))).

(** UPDATE suppliers SET name = ?, contact_info = ?, address = ? WHERE id = ? *)
Definition update_supplier_stmt (supplier_id : Z) (name : string)
           (contact_info address : option string) (d : db) : exn + effect :=
  inr (mk_effect
         (set_suppliers d
            (update_where sup_id supplier_id
               (fun s => mk_supplier (sup_id s) name contact_info address) (suppliers d))
            (seq_suppliers d))
         None (count_where (fun s => sup_id s =? supplier_id) (suppliers d))).

(** UPDATE products SET name = ?, description = ?, category_id = ?,
    price = ?, reorder_level = ? WHERE id = ? *)
Definition update_product_stmt (product_id : Z) (name : string)
           (description : option string) (category_id : option Z) (price : Q)
           (reorder_level : Z) (d : db) : exn + effect :=
  if has_product d product_id && negb (fk_ok (has_category d) category_id)
  then inl (IntegrityError "FOREIGN KEY constraint failed")
  else
    inr (mk_effect
           (set_products d
              (update_where prod_id product_id
                 (fun p => mk_product (prod_id p) name description category_id price reorder_level)
                 (products d))
              (seq_products d))
           None (count_where (fun p => prod_id p =? product_id) (products d))).

(** UPDATE inventory_transactions SET product_id = ?, transaction_type = ?,
    quantity = ?, supplier_id = ?, notes = ? WHERE id = ? *)
Definition update_transaction_stmt (transaction_id product_id : Z)
           (transaction_type : string) (quantity : Z) (supplier_id : option Z)
           (notes : option string) (d : db) : exn + effect :=
  if has_transaction d transaction_id && negb (valid_transaction_type transaction_type)
  then inl (IntegrityError "CHECK constraint failed: transaction_type")
  else if has_transaction d transaction_id
          && negb (has_product d product_id && fk_ok (has_supplier d) supplier_id)
  then inl (IntegrityError "FOREIGN KEY constraint failed")
  else
    inr (mk_effect
           (set_transactions d
              (update_where tx_id transaction_id
                 (fun t => mk_transaction (tx_id t) product_id transaction_type
                                          quantity supplier_id notes)
                 (inventory_transactions d))
              (seq_transactions d))
           None (count_where (fun t => tx_id t =? transaction_id) (inventory_transactions d))).

(** DELETE FROM categories WHERE id = ? *)
Definition delete_category_stmt (category_id : Z) (d : db) : exn + effect :=
  if has_category d category_id
     && existsb (fun p => Sql.eq_opt (prod_category_id p) category_id) (products d)
  then inl (IntegrityError "FOREIGN KEY constraint failed")
  else
    inr (mk_effect
           (set_categories d
              (filter (fun c => negb (cat_id c =? category_id)) (categories d))
              (seq_categories d))
           None (count_where (fun c => cat_id c =? category_id) (categories d))).

(** DELETE FROM suppliers WHERE id = ? *)
Definition delete_supplier_stmt (supplier_id : Z) (d : db) : exn + effect :=
  if has_supplier d supplier_id
     && existsb (fun t => Sql.eq_opt (tx_supplier_id t) supplier_id) (inventory_transactions d)
  then inl (IntegrityError "FOREIGN KEY constraint failed")
  else
    inr (mk_effect
           (set_suppliers d
              (filter (fun s => negb (sup_id s =? supplier_id)) (suppliers d))
              (seq_suppliers d))
           None (count_where (fun s => sup_id s =? supplier_id) (suppliers d))).

(** DELETE FROM products WHERE id = ? *)
Definition delete_product_stmt (product_id : Z) (d : db) : exn + effect :=
  if has_product d product_id
     && existsb (fun t => tx_product_id t =? product_id) (inventory_transactions d)
  then inl (IntegrityError "FOREIGN KEY constraint failed")
  else
    inr (mk_effect
           (set_products d
              (filter (fun p => negb (prod_id p =? product_id)) (products d))
              (seq_products d))
           None (count_where (fun p => prod_id p =? product_id) (products d))).

(** DELETE FROM inventory_transactions WHERE id = ? *)
Definition delete_transaction_stmt (transaction_id : Z) (d : db) : exn + effect :=
  inr (mk_effect
         (set_transactions d
            (filter (fun t => negb (tx_id t =? transaction_id)) (inventory_transactions d))
            (seq_transactions d))
         None (count_where (fun t => tx_id t =? transaction_id) (inventory_transactions d))).

(** ** The repository (crud_operations.py, class CRUDOperations)

    The methods print a message in their handlers; printing is not part of
    the state and is left out. *)

Definition create_category (name : string) (description : option string)
  : M (option Z) :=
  try_except
    (execute (insert_category name description) ;;;
     commit ;;;
     k <- get_lastrowid ;;
     ret (Some k))
    (fun _ => ret None).

Definition update_category (category_id : Z) (name : string)
           (description : option string) : M bool :=
  try_except
    (execute (update_category_stmt category_id name description) ;;;
     commit ;;;
     n <- get_rowcount ;;
     ret (n >? 0))
    (fun _ => ret false).

Definition delete_category (category_id : Z) : M bool :=
  try_except
    (n <- execute_query
            (fun d => count_where (fun p => Sql.eq_opt (prod_category_id p) category_id)
                                  (products d)) ;;
     if n >? 0 then ret false
     else
       execute (delete_category_stmt category_id) ;;;
       commit ;;;
       n <- get_rowcount ;;
       ret (n >? 0))
    (fun _ => ret false).

Definition create_supplier (name : string) (contact_info address : option string)
  : M (option Z) :=
  try_except
    (execute (insert_supplier name contact_info address) ;;;
     commit ;;;
     k <- get_lastrowid ;;
     ret (Some k))
    (fun _ => ret None).

Definition update_supplier (supplier_id : Z) (name : string)
           (contact_info address : option string) : M bool :=
  try_except
    (execute (update_supplier_stmt supplier_id name contact_info address) ;;;
     commit ;;;
     n <- get_rowcount ;;
     ret (n >? 0))
    (fun _ => ret false).

Definition delete_supplier (supplier_id : Z) : M bool :=
  try_except
    (n <- execute_query
            (fun d => count_where (fun t => Sql.eq_opt (tx_supplier_id t) supplier_id)
                                  (inventory_transactions d)) ;;
     if n >? 0 then ret false
     else
       execute (delete_supplier_stmt supplier_id) ;;;
       commit ;;;
       n <- get_rowcount ;;
       ret (n >? 0))
    (fun _ => ret false).

Definition create_product (name : string) (description : option string)
           (category_id : option Z) (price : Q) (reorder_level : Z)
  : M (option Z) :=
  try_except
    (execute (insert_product name description category_id price reorder_level) ;;;
     commit ;;;
     k <- get_lastrowid ;;
     ret (Some k))
    (fun _ => ret None).

Definition update_product (product_id : Z) (name : string)
           (description : option string) (category_id : option Z) (price : Q)
           (reorder_level : Z) : M bool :=
  try_except
    (execute (update_product_stmt product_id name description category_id
                                  price reorder_level) ;;;
     commit ;;;
     n <- get_rowcount ;;
     ret (n >? 0))
    (fun _ => ret false).

Definition delete_product (product_id : Z) : M bool :=
  try_except
    (n <- execute_query
            (fun d => count_where (fun t => tx_product_id t =? product_id)
                                  (inventory_transactions d)) ;;
     if n >? 0 then ret false
     else
       execute (delete_product_stmt product_id) ;;;
       commit ;;;
       n <- get_rowcount ;;
       ret (n >? 0))
    (fun _ => ret false).

(** [if transaction_type not in ['IN', 'OUT', 'ADJUSTMENT']: raise ValueError] *)
Definition validate_transaction_type (transaction_type : string) : M unit :=
  if negb (valid_transaction_type transaction_type)
  then raise (ValueError "Transaction type must be 'IN', 'OUT', or 'ADJUSTMENT'")
  else ret tt.

Definition create_transaction (product_id : Z) (transaction_type : string)
           (quantity : Z) (supplier_id : option Z) (notes : option string)
  : M (option Z) :=
  try_except
    (validate_transaction_type transaction_type ;;;
     execute (insert_transaction product_id transaction_type quantity
                                 supplier_id notes) ;;;
     commit ;;;
     k <- get_lastrowid ;;
     ret (Some k))
    (fun _ => ret None).

Definition update_transaction (transaction_id product_id : Z)
           (transaction_type : string) (quantity : Z) (supplier_id : option Z)
           (notes : option string) : M bool :=
  try_except
    (validate_transaction_type transaction_type ;;;
     execute (update_transaction_stmt transaction_id product_id transaction_type
                                      quantity supplier_id notes) ;;;
     commit ;;;
     n <- get_rowcount ;;
     ret (n >? 0))
    (fun _ => ret false).

Definition delete_transaction (transaction_id : Z) : M bool :=
  try_except
    (execute (delete_transaction_stmt transaction_id) ;;;
     commit ;;;
     n <- get_rowcount ;;
     ret (n >? 0))
    (fun _ => ret false).

(** *** Derived stock

    COALESCE(SUM(CASE WHEN transaction_type = 'IN' THEN quantity ELSE 0 END), 0)
    - COALESCE(SUM(CASE WHEN transaction_type = 'OUT' THEN quantity ELSE 0 END), 0)

    evaluated over the transaction columns of a set of rows; the columns
    are NULL in the row a LEFT JOIN makes for a product without
    transactions, and [NULL = 'IN'] is not true. *)

Definition case_when_type (ty : string) (t : option transaction) : option Z :=
  match t with
  | Some r => if String.eqb (tx_transaction_type r) ty
              then Some (tx_quantity r) else Some 0
  | None => Some 0
  end.

Definition current_stock_expr (ts : list (option transaction)) : Z :=
  Sql.coalesce (Sql.sum (map (case_when_type "IN") ts)) 0
  - Sql.coalesce (Sql.sum (map (case_when_type "OUT") ts)) 0.

(** SELECT <current_stock> FROM inventory_transactions WHERE product_id = ?
    An aggregate query without GROUP BY yields exactly one row. *)
Definition product_stock_query (product_id : Z) (d : db) : option Z :=
  Some (current_stock_expr
          (map Some (filter (fun t => tx_product_id t =? product_id)
                            (inventory_transactions d)))).

Definition get_product_stock (product_id : Z) : M Z :=
  result <- execute_query (product_stock_query product_id) ;;
  ret (match result with Some v => v | None => 0 end).

(** *** Product search: the LIKE operator

    SQLite's LIKE: [%] matches any run of characters, also the empty one,
    [_] matches exactly one character, every other pattern character
    matches itself, upper and lower case of the ASCII letters being the
    same.  No ESCAPE clause is given by the query. *)

Module Like.

Definition to_lower (c : ascii) : ascii :=
  let n := N_of_ascii c in
  if ((65 <=? n) && (n <=? 90))%N then ascii_of_N (n + 32) else c.

Definition same_char (a b : ascii) : bool :=
  Ascii.eqb (to_lower a) (to_lower b).

Fixpoint suffixes (s : string) : list string :=
  s :: match s with
       | EmptyString => []
       | String _ r => suffixes r
       end.

Fixpoint like (pat s : string) : bool :=
  match pat with
  | EmptyString => match s with EmptyString => true | String _ _ => false end
  | String p pat' =>
      if Ascii.eqb p "%" then existsb (like pat') (suffixes s)
      else match s with
           | EmptyString => false
           | String c s' =>
               (Ascii.eqb p "_" || same_char p c) && like pat' s'
           end
  end.

(** [x LIKE pat] on a nullable column, used as a condition: NULL LIKE pat
    is NULL, which is not true. *)
Definition like_opt (pat : string) (x : option string) : bool :=
  match x with Some s => like pat s | None => false end.

End Like.

Record product_listing := mk_listing {
  pl_product : product;                 (* p.* *)
  pl_category_name : option string      (* c.name as category_name *)
}.

(** FROM products p LEFT JOIN categories c ON p.category_id = c.id *)
Definition products_categories (d : db) : list (product * option category) :=
  Sql.left_join (fun p c => Sql.eq_opt (prod_category_id p) (cat_id c))
                (products d) (categories d).

Definition category_name_of (c : option category) : option string :=
  option_map cat_name c.

(** SELECT p.*, c.name as category_name FROM products p LEFT JOIN categories c
    ON p.category_id = c.id WHERE p.name LIKE ? OR p.description LIKE ?
    ORDER BY p.name *)
Definition search_products_query (search_pattern : string) (d : db)
  : list product_listing :=
  Sql.order_by
    (fun a b => String.leb (prod_name (pl_product a)) (prod_name (pl_product b)))
    (map (fun pc => mk_listing (fst pc) (category_name_of (snd pc)))
         (filter (fun pc => Like.like search_pattern (prod_name (fst pc))
                            || Like.like_opt search_pattern (prod_description (fst pc)))
                 (products_categories d))).

Definition search_products (search_term : string) : M (list product_listing) :=
  let search_pattern := String "%" (String.append search_term "%") in
  execute_query (search_products_query search_pattern).

(** ** The ledger queries (database.py, class InventoryDatabase) *)

Definition joined : Type := (product * option category) * option transaction.

(** FROM products p LEFT JOIN categories c ON p.category_id = c.id
    LEFT JOIN inventory_transactions t ON p.id = t.product_id *)
Definition products_categories_transactions (d : db) : list joined :=
  Sql.left_join (fun pc t => prod_id (fst pc) =? tx_product_id t)
                (products_categories d) (inventory_transactions d).

Record inventory_row := mk_inventory_row {
  inv_id : Z;
  inv_name : string;
  inv_description : option string;
  inv_category_name : option string;
  inv_price : Q;
  inv_reorder_level : Z;
  inv_current_stock : Z
}.

(** GROUP BY p.id, p.name, p.description, c.name, p.price, p.reorder_level *)
Definition same_inventory_group (r r' : joined) : bool :=
  let p := fst (fst r) in
  let p' := fst (fst r') in
  (prod_id p =? prod_id p')
  && String.eqb (prod_name p) (prod_name p')
  && opt_eqb String.eqb (prod_description p) (prod_description p')
  && opt_eqb String.eqb (category_name_of (snd (fst r))) (category_name_of (snd (fst r')))
  && Qeq_bool (prod_price p) (prod_price p')
  && (prod_reorder_level p =? prod_reorder_level p').

(** The select list, evaluated once per group. *)
Definition inventory_select (g : list joined) : list inventory_row :=
  match g with
  | [] => []
  | r :: _ =>
      let p := fst (fst r) in
      [mk_inventory_row (prod_id p) (prod_name p) (prod_description p)
                        (category_name_of (snd (fst r)))
                        (prod_price p) (prod_reorder_level p)
                        (current_stock_expr (map snd g))]
  end.

Definition inventory_groups (d : db) : list inventory_row :=
  flat_map inventory_select
           (Sql.group_by same_inventory_group (products_categories_transactions d)).



(** ... HAVING current_stock <= p.reorder_level ORDER BY current_stock ASC *)
Definition low_stock_query (d : db) : list inventory_row :=
  Sql.order_by (fun a b => inv_current_stock a <=? inv_current_stock b)
               (filter (fun r => inv_current_stock r <=? inv_reorder_level r)
                       (inventory_groups d)).

Definition get_low_stock_products : M (list inventory_row) :=
  execute_query low_stock_query.

(** The inner query of get_inventory_value:
    SELECT p.price, <current_stock> FROM products p
    LEFT JOIN inventory_transactions t ON p.id = t.product_id
    GROUP BY p.id, p.price *)
Definition same_value_group (r r' : product * option transaction) : bool :=
  (prod_id (fst r) =? prod_id (fst r'))
  && Qeq_bool (prod_price (fst r)) (prod_price (fst r')).

Definition value_select (g : list (product * option transaction)) : list (Q * Z) :=
  match g with
  | [] => []
  | r :: _ => [(prod_price (fst r), current_stock_expr (map snd g))]
  end.

Definition value_subquery (d : db) : list (Q * Z) :=
  flat_map value_select
           (Sql.group_by same_value_group
              (Sql.left_join (fun p t => prod_id p =? tx_product_id t)
                             (products d) (inventory_transactions d))).

(** SELECT SUM(current_stock * price), AVG(price), COUNT( * ) FROM (...) *)
Definition inventory_value_query (d : db) : option (option Q * option Q * Z) :=
  let rows := value_subquery d in
  Some (Sql.sum_real (map (fun r => inject_Z (snd r) * fst r)%Q rows),
        Sql.avg (map fst rows),
        Sql.count_star rows).

Record inventory_value := mk_inventory_value {
  total_value : Q;
  avg_price : Q;
  total_products : Z
}.

(** Python's [x or d] on a number that may be None. *)
Definition or_real (x : option Q) (d : Q) : Q :=
  match x with
  | Some v => if Qeq_bool v 0 then d else v
  | None => d
  end.
Definition or_int (x : Z) (d : Z) : Z := if x =? 0 then d else x.

Definition get_inventory_value : M inventory_value :=
  result <- execute_query inventory_value_query ;;
  match result with
  | Some (tv, ap, n) => ret (mk_inventory_value (or_real tv 0) (or_real ap 0) (or_int n 0))
  | None => ret (mk_inventory_value 0 0 0)
  end.

(** ** The value report (reports.py, generate_inventory_value_report)

    The report text is made of [get_inventory_value] and of the rows
    [top_products] of the query below; only the rows are modelled. *)

Record value_row := mk_value_row {
  vr_name : string;
  vr_category_name : option string;
  vr_current_stock : Z;
  vr_price : Q;
  vr_total_value : Q
}.

(** GROUP BY p.id, p.name, c.name, p.price *)
Definition same_report_group (r r' : joined) : bool :=
  let p := fst (fst r) in
  let p' := fst (fst r') in
  (prod_id p =? prod_id p')
  && String.eqb (prod_name p) (prod_name p')
  && opt_eqb String.eqb (category_name_of (snd (fst r))) (category_name_of (snd (fst r')))
  && Qeq_bool (prod_price p) (prod_price p').

Definition report_select (g : list joined) : list value_row :=
  match g with
  | [] => []
  | r :: _ =>
      let p := fst (fst r) in
      let stock := current_stock_expr (map snd g) in
      [mk_value_row (prod_name p) (category_name_of (snd (fst r))) stock
                    (prod_price p) (inject_Z stock * prod_price p)%Q]
  end.

(** ... HAVING current_stock > 0 ORDER BY total_value DESC LIMIT 5 *)
Definition top_products_query (d : db) : list value_row :=
  Sql.limit 5
    (Sql.order_by (fun a b => Qle_bool (vr_total_value b) (vr_total_value a))
       (filter (fun r => vr_current_stock r >? 0)
          (flat_map report_select
             (Sql.group_by same_report_group (products_categories_transactions d))))).

Definition top_products : M (list value_row) :=
  execute_query top_products_query.

(** ** Sequences of repository calls and the states they reach *)

Inductive call :=
| CreateCategory (name : string) (description : option string)
| UpdateCategory (category_id : Z) (name : string) (description : option string)
| DeleteCategory (category_id : Z)
| CreateSupplier (name : string) (contact_info address : option string)
| UpdateSupplier (supplier_id : Z) (name : string) (contact_info address : option string)
| DeleteSupplier (supplier_id : Z)
| CreateProduct (name : string) (description : option string)
                (category_id : option Z) (price : Q) (reorder_level : Z)
| UpdateProduct (product_id : Z) (name : string) (description : option string)
                (category_id : option Z) (price : Q) (reorder_level : Z)
| DeleteProduct (product_id : Z)
| CreateTransaction (product_id : Z) (transaction_type : string) (quantity : Z)
                    (supplier_id : option Z) (notes : option string)
| UpdateTransaction (transaction_id product_id : Z) (transaction_type : string)
                    (quantity : Z) (supplier_id : option Z) (notes : option string)
| DeleteTransaction (transaction_id : Z).

(** The connection a method leaves behind. *)
Definition after {A} (m : M A) (c : conn) : conn := snd (m c).

(** What a method hands back to its caller. *)
Definition result_of {A} (m : M A) (c : conn) : outcome A := fst (m c).

Definition run_call (k : call) (c : conn) : conn :=
  match k with
  | CreateCategory n d => after (create_category n d) c
  | UpdateCategory i n d => after (update_category i n d) c
  | DeleteCategory i => after (delete_category i) c
  | CreateSupplier n ci a => after (create_supplier n ci a) c
  | UpdateSupplier i n ci a => after (update_supplier i n ci a) c
  | DeleteSupplier i => after (delete_supplier i) c
  | CreateProduct n d cid p r => after (create_product n d cid p r) c
  | UpdateProduct i n d cid p r => after (update_product i n d cid p r) c
  | DeleteProduct i => after (delete_product i) c
  | CreateTransaction p ty q s n => after (create_transaction p ty q s n) c
  | UpdateTransaction i p ty q s n => after (update_transaction i p ty q s n) c
  | DeleteTransaction i => after (delete_transaction i) c
  end.

Definition run_calls (ks : list call) (c : conn) : conn :=
  fold_left (fun c k => run_call k c) ks c.

Definition reachable (d : db) : Prop :=
  exists ks, store (run_calls ks (connect empty_db)) = d.

(** The rows of seed_sample_data (database.py), entered through the
    repository on a new store. *)
Definition sample_calls : list call :=
  [ CreateCategory "Electronics" (Some "Electronic devices and components");
    CreateCategory "Clothing" (Some "Apparel and accessories");
    CreateCategory "Books" (Some "Books and publications");
    CreateCategory "Home & Garden" (Some "Home improvement and garden supplies");
    CreateSupplier "TechCorp Inc." (Some "contact@techcorp.com")
                   (Some "123 Tech Street, Silicon Valley, CA");
    CreateSupplier "Fashion Forward" (Some "orders@fashionforward.com")
                   (Some "456 Fashion Ave, New York, NY");
    CreateSupplier "BookWorld" (Some "sales@bookworld.com")
                   (Some "789 Library Lane, Boston, MA");
    CreateSupplier "Home Depot" (Some "orders@homedepot.com")
                   (Some "321 Hardware Road, Atlanta, GA");
    CreateProduct "Laptop" (Some "High-performance laptop") (Some 1) (99999 # 100) 5;
    CreateProduct "T-Shirt" (Some "Cotton t-shirt") (Some 2) (1999 # 100) 20;
    CreateProduct "Python Programming Book" (Some "Learn Python programming")
                  (Some 3) (4999 # 100) 10;
    CreateProduct "Garden Hose" (Some "50ft garden hose") (Some 4) (2999 # 100) 15;
    CreateTransaction 1 "IN" 10 (Some 1) (Some "Initial stock");
    CreateTransaction 2 "IN" 50 (Some 2) (Some "Initial stock");
    CreateTransaction 3 "IN" 25 (Some 3) (Some "Initial stock");
    CreateTransaction 4 "IN" 30 (Some 4) (Some "Initial stock");
    CreateTransaction 1 "OUT" 2 None (Some "Customer sale");
    CreateTransaction 2 "OUT" 5 None (Some "Customer sale") ].

Definition sample : conn := run_calls sample_calls (connect empty_db).

(** ** The constraints of the schema as a state invariant *)

Definition keys_ok (ids : list Z) (seq : Z) : Prop :=
  0 <= seq /\ NoDup ids /\ Forall (fun k => 0 < k <= seq) ids.

Record wf_db (d : db) : Prop := mk_wf {
  wf_categories : keys_ok (map cat_id (categories d)) (seq_categories d);
  wf_suppliers : keys_ok (map sup_id (suppliers d)) (seq_suppliers d);
  wf_products : keys_ok (map prod_id (products d)) (seq_products d);
  wf_transactions : keys_ok (map tx_id (inventory_transactions d)) (seq_transactions d);
  wf_category_names : NoDup (map cat_name (categories d));
  wf_product_category :
    Forall (fun p => fk_ok (has_category d) (prod_category_id p) = true) (products d);
  wf_transaction_product :
    Forall (fun t => has_product d (tx_product_id t) = true) (inventory_transactions d);
  wf_transaction_supplier :
    Forall (fun t => fk_ok (has_supplier d) (tx_supplier_id t) = true)
           (inventory_transactions d);
  wf_transaction_type :
    Forall (fun t => valid_transaction_type (tx_transaction_type t) = true)
           (inventory_transactions d)
}.

(** ** Reference notions: what the queries are expected to compute *)

(** Sum of the quantities of the transactions of product [p] with type [ty]. *)
Definition quantity_sum (ty : string) (p : Z) (ledger : list transaction) : Z :=
  fold_right Z.add 0
    (map tx_quantity
         (filter (fun t => (tx_product_id t =? p) && String.eqb (tx_transaction_type t) ty)
                 ledger)).

(** Derived stock of product [p]: IN quantities minus OUT quantities. *)
Definition stock (d : db) (p : Z) : Z :=
  quantity_sum "IN" p (inventory_transactions d)
  - quantity_sum "OUT" p (inventory_transactions d).




(** The four create methods behind one request type. *)
Inductive creation :=
| NewCategory (name : string) (description : option string)
| NewSupplier (name : string) (contact_info address : option string)
| NewProduct (name : string) (description : option string)
             (category_id : option Z) (price : Q) (reorder_level : Z)
| NewTransaction (product_id : Z) (transaction_type : string) (quantity : Z)
                 (supplier_id : option Z) (notes : option string).

Definition create (r : creation) : M (option Z) :=
  match r with
  | NewCategory n d => create_category n d
  | NewSupplier n ci a => create_supplier n ci a
  | NewProduct n d cid p rl => create_product n d cid p rl
  | NewTransaction p ty q s n => create_transaction p ty q s n
  end.

(** The transaction type of the request is outside the enumeration. *)
Definition bad_type (r : creation) : bool :=
  match r with
  | NewTransaction _ ty _ _ _ => negb (valid_transaction_type ty)
  | _ => false
  end.

(** The request breaks a constraint: a category name already taken, a
    category, product or supplier reference to a row that does not exist,
    or a transaction type outside the enumeration. *)
Definition constraint_violated (r : creation) (d : db) : bool :=
  match r with
  | NewCategory n _ => existsb (fun c => String.eqb (cat_name c) n) (categories d)
  | NewSupplier _ _ _ => false
  | NewProduct _ _ cid _ _ => negb (fk_ok (has_category d) cid)
  | NewTransaction p ty _ s _ =>
      negb (valid_transaction_type ty)
      || negb (has_product d p)
      || negb (fk_ok (has_supplier d) s)
  end.

(** The three guarded delete methods behind one request type. *)
Inductive removal :=
| RemoveCategory (category_id : Z)
| RemoveSupplier (supplier_id : Z)
| RemoveProduct (product_id : Z).

Definition delete (r : removal) : M bool :=
  match r with
  | RemoveCategory k => delete_category k
  | RemoveSupplier k => delete_supplier k
  | RemoveProduct k => delete_product k
  end.

(** The row the request names is in its table. *)
Definition row_present (r : removal) (d : db) : bool :=
  match r with
  | RemoveCategory k => has_category d k
  | RemoveSupplier k => has_supplier d k
  | RemoveProduct k => has_product d k
  end.

(** Rows that reference it: products of a category, transactions of a
    supplier or of a product. *)
Definition dependents (r : removal) (d : db) : nat :=
  match r with
  | RemoveCategory k =>
      List.length (filter (fun p => Sql.eq_opt (prod_category_id p) k) (products d))
  | RemoveSupplier k =>
      List.length (filter (fun t => Sql.eq_opt (tx_supplier_id t) k)
                          (inventory_transactions d))
  | RemoveProduct k =>
      List.length (filter (fun t => tx_product_id t =? k) (inventory_transactions d))
  end.

(** The store without the row the request names, all else as it was. *)
Definition without_row (r : removal) (d : db) : db :=
  match r with
  | RemoveCategory k =>
      set_categories d (filter (fun c => negb (cat_id c =? k)) (categories d))
                     (seq_categories d)
  | RemoveSupplier k =>
      set_suppliers d (filter (fun s => negb (sup_id s =? k)) (suppliers d))
                    (seq_suppliers d)
  | RemoveProduct k =>
      set_products d (filter (fun p => negb (prod_id p =? k)) (products d))
                   (seq_products d)
  end.

(** No stored product has a negative price. *)
Definition prices_nonneg (d : db) : Prop :=
  Forall (fun p => (0 <= prod_price p)%Q) (products d).

(** The price a call hands to the products table, if any, is not negative. *)
Definition supplies_nonneg_price (k : call) : Prop :=
  match k with
  | CreateProduct _ _ _ price _ => (0 <= price)%Q
  | UpdateProduct _ _ _ _ price _ => (0 <= price)%Q
  | _ => True
  end.

(** The category row a product refers to, if any. *)
Definition category_of (d : db) (p : product) : option category :=
  find (fun c => Sql.eq_opt (prod_category_id p) (cat_id c)) (categories d).








Definition listing_of (d : db) (p : product) : product_listing :=
  mk_listing p (category_name_of (category_of d p)).



(** The same, decided: [term] is a prefix, up to case, of a suffix of [s]. *)
Fixpoint ci_prefix (term s : string) : bool :=
  match term with
  | EmptyString => true
  | String a term' =>
      match s with
      | EmptyString => false
      | String b s' => Like.same_char a b && ci_prefix term' s'
      end
  end.

Definition ci_contains (term s : string) : bool :=
  existsb (ci_prefix term) (Like.suffixes s).

(** The product mentions the term in its name or in its description. *)
Definition mentions (term : string) (p : product) : bool :=
  ci_contains term (prod_name p)
  || match prod_description p with
     | Some ds => ci_contains term ds
     | None => false
     end.

(** The term has none of the two LIKE wildcards in it. *)
Fixpoint wildcard_free (term : string) : bool :=
  match term with
  | EmptyString => true
  | String c r => negb (Ascii.eqb c "%") && negb (Ascii.eqb c "_") && wildcard_free r
  end.


(** ** The read side of the repository (crud_operations.py)

    [fetchall] hands back the rows of the result set in order, [fetchone]
    its first row or None. *)

(** SELECT * FROM categories ORDER BY name *)
Definition get_categories : M (list category) :=
  execute_query
    (fun d => Sql.order_by (fun a b => String.leb (cat_name a) (cat_name b))
                           (categories d)).

(** SELECT * FROM categories WHERE id = ? *)
Definition get_category_by_id (category_id : Z) : M (option category) :=
  execute_query
    (fun d => hd_error (filter (fun c => cat_id c =? category_id) (categories d))).

(** SELECT * FROM suppliers ORDER BY name *)
Definition get_suppliers : M (list supplier) :=
  execute_query
    (fun d => Sql.order_by (fun a b => String.leb (sup_name a) (sup_name b))
                           (suppliers d)).

(** SELECT * FROM suppliers WHERE id = ? *)
Definition get_supplier_by_id (supplier_id : Z) : M (option supplier) :=
  execute_query
    (fun d => hd_error (filter (fun s => sup_id s =? supplier_id) (suppliers d))).

(** The select list [p.*, c.name as category_name]. *)
Definition select_listing (pc : product * option category) : product_listing :=
  mk_listing (fst pc) (category_name_of (snd pc)).

(** SELECT p.*, c.name as category_name FROM products p
    LEFT JOIN categories c ON p.category_id = c.id ORDER BY p.name *)
Definition get_products : M (list product_listing) :=
  execute_query
    (fun d => Sql.order_by
                (fun a b => String.leb (prod_name (pl_product a)) (prod_name (pl_product b)))
                (map select_listing (products_categories d))).

(** ... WHERE p.id = ? *)
Definition get_product_by_id (product_id : Z) : M (option product_listing) :=
  execute_query
    (fun d => hd_error
                (map select_listing
                     (filter (fun pc => prod_id (fst pc) =? product_id)
                             (products_categories d)))).

(** [a JOIN b ON cond]: every left row paired with each matching right
    row; a left row without a match is dropped. *)
Definition inner_join {A B} (on : A -> B -> bool) (l : list A) (r : list B)
  : list (A * B) :=
  flat_map (fun a => map (fun b => (a, b)) (filter (on a) r)) l.

Record transaction_listing := mk_transaction_listing {
  tl_transaction : transaction;          (* t.* *)
  tl_product_name : string;              (* p.name as product_name *)
  tl_supplier_name : option string       (* s.name as supplier_name *)
}.

(** FROM inventory_transactions t JOIN products p ON t.product_id = p.id
    LEFT JOIN suppliers s ON t.supplier_id = s.id *)
Definition transactions_products_suppliers (d : db)
  : list ((transaction * product) * option supplier) :=
  Sql.left_join (fun tp s => Sql.eq_opt (tx_supplier_id (fst tp)) (sup_id s))
                (inner_join (fun t p => tx_product_id t =? prod_id p)
                            (inventory_transactions d) (products d))
                (suppliers d).

Definition select_transaction_listing (r : (transaction * product) * option supplier)
  : transaction_listing :=
  mk_transaction_listing (fst (fst r)) (prod_name (snd (fst r)))
                         (option_map sup_name (snd r)).

(** SELECT t.*, p.name as product_name, s.name as supplier_name ...
    WHERE t.id = ? *)
Definition get_transaction_by_id (transaction_id : Z) : M (option transaction_listing) :=
  execute_query
    (fun d => hd_error
                (map select_transaction_listing
                     (filter (fun r => tx_id (fst (fst r)) =? transaction_id)
                             (transactions_products_suppliers d)))).

(** ** Every mutating method behind one entry point *)

Inductive reply :=
| Id (k : option Z)      (* what a create method returns *)
| Done (ok : bool).      (* what an update or delete method returns *)

Definition as_id (m : M (option Z)) : M reply := k <- m ;; ret (Id k).
Definition as_done (m : M bool) : M reply := b <- m ;; ret (Done b).

Definition perform (k : call) : M reply :=
  match k with
  | CreateCategory n d => as_id (create_category n d)
  | UpdateCategory i n d => as_done (update_category i n d)
  | DeleteCategory i => as_done (delete_category i)
  | CreateSupplier n ci a => as_id (create_supplier n ci a)
  | UpdateSupplier i n ci a => as_done (update_supplier i n ci a)
  | DeleteSupplier i => as_done (delete_supplier i)
  | CreateProduct n d cid p r => as_id (create_product n d cid p r)
  | UpdateProduct i n d cid p r => as_done (update_product i n d cid p r)
  | DeleteProduct i => as_done (delete_product i)
  | CreateTransaction p ty q s n => as_id (create_transaction p ty q s n)
  | UpdateTransaction i p ty q s n => as_done (update_transaction i p ty q s n)
  | DeleteTransaction i => as_done (delete_transaction i)
  end.

(** The call is an update or a delete of a row that is not in its table. *)
Definition target_missing (k : call) (d : db) : bool :=
  match k with
  | UpdateCategory i _ _ | DeleteCategory i => negb (has_category d i)
  | UpdateSupplier i _ _ _ | DeleteSupplier i => negb (has_supplier d i)
  | UpdateProduct i _ _ _ _ _ | DeleteProduct i => negb (has_product d i)
  | UpdateTransaction i _ _ _ _ _ | DeleteTransaction i => negb (has_transaction d i)
  | _ => false
  end.

(** The keys in use in the table a create request adds to. *)
Definition table_keys (r : creation) (d : db) : list Z :=
  match r with
  | NewCategory _ _ => map cat_id (categories d)
  | NewSupplier _ _ _ => map sup_id (suppliers d)
  | NewProduct _ _ _ _ _ => map prod_id (products d)
  | NewTransaction _ _ _ _ _ => map tx_id (inventory_transactions d)
  end.

(** ** The category and supplier reports (reports.py)

    As for the value report, the rows the query returns are modelled, not
    the text made of them. *)


(** The non-NULL values of a column: the only ones an aggregate sees. *)
Definition non_null {A} (l : list (option A)) : list A :=
  flat_map (fun x => match x with Some v => [v] | None => [] end) l.

(** [COUNT(expr)] and [COUNT(DISTINCT expr)]. *)
Definition count_column {A} (l : list (option A)) : Z :=
  Z.of_nat (List.length (non_null l)).
Definition count_distinct (l : list (option Z)) : Z :=
  Z.of_nat (List.length (nodup Z.eq_dec (non_null l))).

(** The subquery [stock] of the category report:
    SELECT p.id as product_id, <current_stock> FROM products p
    LEFT JOIN inventory_transactions t ON p.id = t.product_id GROUP BY p.id *)
Definition same_product_group (r r' : product * option transaction) : bool :=
  prod_id (fst r) =? prod_id (fst r').

Definition stock_select (g : list (product * option transaction)) : list (Z * Z) :=
  match g with
  | [] => []
  | r :: _ => [(prod_id (fst r), current_stock_expr (map snd g))]
  end.

Definition stock_subquery (d : db) : list (Z * Z) :=
  flat_map stock_select
           (Sql.group_by same_product_group
              (Sql.left_join (fun p t => prod_id p =? tx_product_id t)
                             (products d) (inventory_transactions d))).

Definition category_joined : Type := (category * option product) * option (Z * Z).

(** FROM categories c LEFT JOIN products p ON c.id = p.category_id
    LEFT JOIN (...) stock ON p.id = stock.product_id *)
Definition categories_products_stock (d : db) : list category_joined :=
  Sql.left_join
    (fun cp st => match snd cp with
                  | Some p => prod_id p =? fst st
                  | None => false
                  end)
    (Sql.left_join (fun c p => Sql.eq_opt (prod_category_id p) (cat_id c))
                   (categories d) (products d))
    (stock_subquery d).

Record category_report_row := mk_category_report_row {
  cr_category_name : string;
  cr_product_count : Z;              (* COUNT(p.id) *)
  cr_total_stock : option Z;         (* SUM(current_stock) *)
  cr_avg_price : option Q;           (* AVG(p.price) *)
  cr_total_value : option Q          (* SUM(current_stock * p.price) *)
}.

(** GROUP BY c.id, c.name *)
Definition same_category_group (r r' : category_joined) : bool :=
  (cat_id (fst (fst r)) =? cat_id (fst (fst r')))
  && String.eqb (cat_name (fst (fst r))) (cat_name (fst (fst r'))).

(** [current_stock * p.price] on one joined row: NULL when either is. *)
Definition row_value (r : category_joined) : option Q :=
  match snd (fst r), snd r with
  | Some p, Some st => Some (inject_Z (snd st) * prod_price p)%Q
  | _, _ => None
  end.

Definition category_select (g : list category_joined) : list category_report_row :=
  match g with
  | [] => []
  | r :: _ =>
      [mk_category_report_row
         (cat_name (fst (fst r)))
         (count_column (map (fun r => option_map prod_id (snd (fst r))) g))
         (Sql.sum (map (fun r => option_map snd (snd r)) g))
         (Sql.avg (non_null (map (fun r => option_map prod_price (snd (fst r))) g)))
         (Sql.sum_real (non_null (map row_value g)))]
  end.

(** ORDER BY total_value DESC puts NULL, the least value, last. *)
Definition value_desc (a b : option Q) : bool :=
  match a, b with
  | _, None => true
  | None, Some _ => false
  | Some x, Some y => Qle_bool y x
  end.

Definition category_report_query (d : db) : list category_report_row :=
  Sql.order_by (fun a b => value_desc (cr_total_value a) (cr_total_value b))
               (flat_map category_select
                         (Sql.group_by same_category_group (categories_products_stock d))).

(** The [categories] of generate_category_report. *)
Definition category_report_rows : M (list category_report_row) :=
  execute_query category_report_query.

Record supplier_report_row := mk_supplier_report_row {
  sr_supplier_name : string;
  sr_transaction_count : Z;          (* COUNT(t.id) *)
  sr_total_received : option Z;      (* SUM(CASE WHEN type = 'IN' ...) *)
  sr_total_shipped : option Z;       (* SUM(CASE WHEN type = 'OUT' ...) *)
  sr_products_handled : Z            (* COUNT(DISTINCT t.product_id) *)
}.

(** GROUP BY s.id, s.name *)
Definition same_supplier_group (r r' : supplier * option transaction) : bool :=
  (sup_id (fst r) =? sup_id (fst r'))
  && String.eqb (sup_name (fst r)) (sup_name (fst r')).

Definition supplier_select (g : list (supplier * option transaction))
  : list supplier_report_row :=
  match g with
  | [] => []
  | r :: _ =>
      [mk_supplier_report_row
         (sup_name (fst r))
         (count_column (map (fun r => option_map tx_id (snd r)) g))
         (Sql.sum (map (case_when_type "IN") (map snd g)))
         (Sql.sum (map (case_when_type "OUT") (map snd g)))
         (count_distinct (map (fun r => option_map tx_product_id (snd r)) g))]
  end.

(** FROM suppliers s LEFT JOIN inventory_transactions t ON s.id = t.supplier_id
    GROUP BY s.id, s.name ORDER BY transaction_count DESC *)
Definition supplier_report_query (d : db) : list supplier_report_row :=
  Sql.order_by (fun a b => sr_transaction_count b <=? sr_transaction_count a)
    (flat_map supplier_select
       (Sql.group_by same_supplier_group
          (Sql.left_join (fun s t => Sql.eq_opt (tx_supplier_id t) (sup_id s))
                         (suppliers d) (inventory_transactions d)))).

(** The [suppliers] of generate_supplier_report. *)
Definition supplier_report_rows : M (list supplier_report_row) :=
  execute_query supplier_report_query.

(** *** The low stock report (generate_low_stock_report)

    [tabulate] belongs to an outside library and stays a parameter; its
    cells here are integers and texts. *)






(** ** Reference notions for the reports *)






(** The AUTOINCREMENT counter of the table a create request adds to. *)
Definition table_seq (r : creation) (d : db) : Z :=
  match r with
  | NewCategory _ _ => seq_categories d
  | NewSupplier _ _ _ => seq_suppliers d
  | NewProduct _ _ _ _ _ => seq_products d
  | NewTransaction _ _ _ _ _ => seq_transactions d
  end.

(** * Properties *)

(** ** Derived stock *)

Section StockSums.

Lemma sum_case_when (ty : string) (l : list transaction) :
  Sql.coalesce (Sql.sum (map (case_when_type ty) (map Some l))) 0
  = fold_right Z.add 0
      (map (fun t => if String.eqb (tx_transaction_type t) ty then tx_quantity t else 0) l).
Proof.
  induction l as [|t l IH]; simpl; [reflexivity|].
  destruct (String.eqb (tx_transaction_type t) ty); simpl; rewrite IH; reflexivity.
Qed.

Lemma sum_case_when_filter (ty : string) (p : Z) (l : list transaction) :
  fold_right Z.add 0
    (map (fun t => if String.eqb (tx_transaction_type t) ty then tx_quantity t else 0)
         (filter (fun t => tx_product_id t =? p) l))
  = quantity_sum ty p l.
Proof.
  unfold quantity_sum.
  induction l as [|t l IH]; simpl; [reflexivity|].
  destruct (tx_product_id t =? p); simpl; [|exact IH].
  destruct (String.eqb (tx_transaction_type t) ty); simpl; rewrite IH; reflexivity.
Qed.

Lemma current_stock_expr_rows (p : Z) (d : db) :
  current_stock_expr
    (map Some (filter (fun t => tx_product_id t =? p) (inventory_transactions d)))
  = stock d p.
Proof.
  unfold current_stock_expr, stock.
  rewrite !sum_case_when, !sum_case_when_filter. reflexivity.
Qed.

Lemma current_stock_expr_null : current_stock_expr [None] = 0.
Proof. reflexivity. Qed.

Lemma quantity_sum_app (ty : string) (p : Z) (l1 l2 : list transaction) :
  quantity_sum ty p (l1 ++ l2) = quantity_sum ty p l1 + quantity_sum ty p l2.
Proof.
  unfold quantity_sum. rewrite filter_app, map_app.
  induction (map tx_quantity (filter _ l1)) as [|x xs IH]; simpl; lia.
Qed.



End StockSums.

Lemma get_product_stock_run (p : Z) (c : conn) :
  get_product_stock p c
  = (Return (stock (store c) p),
     mk_conn (store c) (lastrowid c) (-1) (S (executed c))).
Proof.
  unfold get_product_stock, bind, execute_query, product_stock_query, ret.
  rewrite current_stock_expr_rows. reflexivity.
Qed.


Example sample_laptop_stock : result_of (get_product_stock 1) sample = Return 8.
Proof. reflexivity. Qed.

Example sample_unknown_product_stock : result_of (get_product_stock 77) sample = Return 0.
Proof. reflexivity. Qed.


(** ** Recording and deleting transactions *)

Lemma quantity_sum_snoc (ty : string) (p : Z) (l : list transaction) (t : transaction) :
  quantity_sum ty p (l ++ [t])
  = quantity_sum ty p l
    + (if (tx_product_id t =? p) && String.eqb (tx_transaction_type t) ty
       then tx_quantity t else 0).
Proof.
  rewrite quantity_sum_app. f_equal. unfold quantity_sum. simpl.
  destruct ((tx_product_id t =? p) && String.eqb (tx_transaction_type t) ty); simpl; lia.
Qed.





Example negative_in_lowers_stock :
  result_of (get_product_stock 1)
            (after (create_transaction 1 "IN" (-3) None None) sample) = Return 5.
Proof. reflexivity. Qed.

Example negative_out_raises_stock :
  result_of (get_product_stock 1)
            (after (create_transaction 1 "OUT" (-3) None None) sample) = Return 11.
Proof. reflexivity. Qed.

Lemma count_where_pos {A} (cond : A -> bool) (l : list A) (x : A) :
  In x l -> cond x = true -> (count_where cond l >? 0) = true.
Proof.
  intros Hin Hc. unfold count_where, Sql.count_star.
  assert (H : In x (filter cond l)) by (apply filter_In; split; assumption).
  destruct (filter cond l); [destruct H|]. simpl. reflexivity.
Qed.

Lemma quantity_sum_delete (ty : string) (p : Z) (l : list transaction) (t : transaction) :
  NoDup (map tx_id l) -> In t l ->
  quantity_sum ty p (filter (fun u => negb (tx_id u =? tx_id t)) l)
  = quantity_sum ty p l
    - (if (tx_product_id t =? p) && String.eqb (tx_transaction_type t) ty
       then tx_quantity t else 0).
Proof.
  intros Hnd Hin.
  induction l as [|u l IH]; [destruct Hin|].
  simpl in Hnd. inversion Hnd as [|? ? Hnotin Hnd']; subst.
  destruct Hin as [->|Hin].
  - simpl. rewrite Z.eqb_refl. simpl.
    assert (Hsame : filter (fun u => negb (tx_id u =? tx_id t)) l = l).
    { apply forallb_filter_id. apply forallb_forall. intros u Hu.
      apply negb_true_iff, Z.eqb_neq. intros E. apply Hnotin.
      rewrite <- E. apply in_map. exact Hu. }
    rewrite Hsame. unfold quantity_sum. simpl.
    destruct ((tx_product_id t =? p) && String.eqb (tx_transaction_type t) ty);
      simpl; lia.
  - simpl.
    assert (Hne : (tx_id u =? tx_id t) = false).
    { apply Z.eqb_neq. intros E. apply Hnotin. rewrite E. apply in_map. exact Hin. }
    rewrite Hne. simpl. specialize (IH Hnd' Hin).
    unfold quantity_sum in *. simpl.
    destruct ((tx_product_id u =? p) && String.eqb (tx_transaction_type u) ty);
      simpl; lia.
Qed.

Lemma delete_transaction_run (k : Z) (c : conn) :
  delete_transaction k c
  = (Return (count_where (fun t => tx_id t =? k) (inventory_transactions (store c)) >? 0),
     mk_conn (set_transactions (store c)
                (filter (fun t => negb (tx_id t =? k)) (inventory_transactions (store c)))
                (seq_transactions (store c)))
             (lastrowid c)
             (count_where (fun t => tx_id t =? k) (inventory_transactions (store c)))
             (S (executed c))).
Proof. reflexivity. Qed.


(** ** The schema constraints hold in every reachable state *)

Section Keys.
Context {A : Type} (key : A -> Z).

Lemma existsb_key_iff (l : list A) (k : Z) :
  existsb (fun r => key r =? k) l = true <-> In k (map key l).
Proof.
  rewrite existsb_exists, in_map_iff. split.
  - intros (r & Hr & E). apply Z.eqb_eq in E. exists r. split; assumption.
  - intros (r & E & Hr). exists r. split; [exact Hr | apply Z.eqb_eq; exact E].
Qed.

Lemma keys_ok_snoc (l : list A) (seq : Z) (r : A) :
  key r = seq + 1 ->
  keys_ok (map key l) seq -> keys_ok (map key (l ++ [r])) (seq + 1).
Proof.
  intros Hr (Hseq & Hnd & Hrange). rewrite map_app. simpl. rewrite Hr.
  split; [lia|split].
  - apply NoDup_app; [exact Hnd | repeat constructor; intros [] | ].
    intros x Hx [<-|[]].
    rewrite Forall_forall in Hrange. specialize (Hrange _ Hx). lia.
  - apply Forall_app. split.
    + eapply Forall_impl; [|exact Hrange]. simpl. intros; lia.
    + constructor; [lia|constructor].
Qed.

Lemma NoDup_map_filter (f : A -> bool) (l : list A) :
  NoDup (map key l) -> NoDup (map key (filter f l)).
Proof.
  induction l as [|r l IH]; simpl; intros H; [constructor|].
  inversion H as [|? ? Hnotin Hnd]; subst.
  destruct (f r); simpl; [constructor|]; auto.
  intros Hin. apply Hnotin. apply in_map_iff in Hin. destruct Hin as (x & E & Hx).
  apply filter_In in Hx. rewrite <- E. apply in_map. tauto.
Qed.

Lemma keys_ok_filter (f : A -> bool) (l : list A) (seq : Z) :
  keys_ok (map key l) seq -> keys_ok (map key (filter f l)) seq.
Proof.
  intros (Hseq & Hnd & Hrange). split; [exact Hseq|split].
  - apply NoDup_map_filter. exact Hnd.
  - rewrite Forall_forall in *. intros k Hk. apply Hrange.
    apply in_map_iff in Hk. destruct Hk as (x & E & Hx).
    apply filter_In in Hx. rewrite <- E. apply in_map. tauto.
Qed.

Lemma map_key_update_where (k : Z) (f : A -> A) (l : list A) :
  (forall r, key (f r) = key r) ->
  map key (update_where key k f l) = map key l.
Proof.
  intros Hf. unfold update_where. rewrite map_map. apply map_ext.
  intros r. destruct (key r =? k); [apply Hf | reflexivity].
Qed.

Lemma in_keys_delete (k v : Z) (l : list A) :
  In v (map key (filter (fun r => negb (key r =? k)) l))
  <-> In v (map key l) /\ v <> k.
Proof.
  rewrite !in_map_iff. split.
  - intros (r & E & Hr). apply filter_In in Hr. destruct Hr as [Hr Hne].
    apply negb_true_iff, Z.eqb_neq in Hne. split; [exists r; tauto | congruence].
  - intros [(r & E & Hr) Hne]. exists r. split; [exact E|].
    apply filter_In. split; [exact Hr|].
    apply negb_true_iff, Z.eqb_neq. congruence.
Qed.

End Keys.

(** A foreign key that held keeps holding when the parent keys it may
    name are all still there. *)
Lemma fk_ok_mono (has has' : Z -> bool) (k : option Z) :
  (forall v, k = Some v -> has v = true -> has' v = true) ->
  fk_ok has k = true -> fk_ok has' k = true.
Proof. destruct k as [v|]; simpl; [|reflexivity]. intros H. apply H. reflexivity. Qed.

Lemma existsb_snoc {A} (f : A -> bool) (l : list A) (x : A) :
  existsb f (l ++ [x]) = existsb f l || f x.
Proof. rewrite existsb_app. simpl. rewrite orb_false_r. reflexivity. Qed.

Lemma wf_empty_db : wf_db empty_db.
Proof.
  constructor; simpl; try (split; [lia|split]); constructor.
Qed.

Lemma wf_insert_category (name : string) (description : option string)
      (d : db) (f : effect) :
  insert_category name description d = inr f -> wf_db d -> wf_db (eff_db f).
Proof.
  unfold insert_category. destruct (existsb _ _) eqn:Hdup; [discriminate|].
  intros E Hwf. inversion E; subst; clear E. destruct Hwf as [Hcat Hsup Hprod Htx Hnames Hpc Htp Hts Htt].
  constructor; simpl; try assumption.
  - apply keys_ok_snoc; [reflexivity | assumption].
  - rewrite map_app. simpl. apply NoDup_app; [assumption | repeat constructor; intros [] |].
    intros x Hx [E0|[]]. subst x. apply in_map_iff in Hx. destruct Hx as (c & E & Hc).
    assert (Hex : existsb (fun c => String.eqb (cat_name c) name) (categories d) = true).
    { apply existsb_exists. exists c. split; [exact Hc | apply String.eqb_eq; exact E]. }
    congruence.
  - eapply Forall_impl; [|exact Hpc]. simpl. intros p. apply fk_ok_mono.
    intros v _. unfold has_category. simpl. rewrite existsb_snoc. intros ->. reflexivity.
Qed.

Lemma wf_insert_supplier (name : string) (contact_info address : option string)
      (d : db) (f : effect) :
  insert_supplier name contact_info address d = inr f -> wf_db d -> wf_db (eff_db f).
Proof.
  unfold insert_supplier. intros E Hwf. inversion E; subst; clear E. destruct Hwf as [Hcat Hsup Hprod Htx Hnames Hpc Htp Hts Htt].
  constructor; simpl; try assumption.
  - apply keys_ok_snoc; [reflexivity | assumption].
  - eapply Forall_impl; [|exact Hts]. simpl. intros t. apply fk_ok_mono.
    intros v _. unfold has_supplier. simpl. rewrite existsb_snoc. intros ->. reflexivity.
Qed.

Lemma wf_insert_product (name : string) (description : option string)
      (category_id : option Z) (price : Q) (reorder_level : Z) (d : db) (f : effect) :
  insert_product name description category_id price reorder_level d = inr f ->
  wf_db d -> wf_db (eff_db f).
Proof.
  unfold insert_product. destruct (fk_ok _ _) eqn:Hfk; [|discriminate].
  intros E Hwf. inversion E; subst; clear E. destruct Hwf as [Hcat Hsup Hprod Htx Hnames Hpc Htp Hts Htt].
  constructor; simpl; try assumption.
  - apply keys_ok_snoc; [reflexivity | assumption].
  - apply Forall_app. split; [assumption|]. constructor; [exact Hfk|constructor].
  - eapply Forall_impl; [|exact Htp]. simpl. intros t.
    unfold has_product. simpl. rewrite existsb_snoc. intros ->. reflexivity.
Qed.

Lemma wf_insert_transaction (product_id : Z) (transaction_type : string)
      (quantity : Z) (supplier_id : option Z) (notes : option string)
      (d : db) (f : effect) :
  insert_transaction product_id transaction_type quantity supplier_id notes d = inr f ->
  wf_db d -> wf_db (eff_db f).
Proof.
  unfold insert_transaction.
  destruct (valid_transaction_type _) eqn:Hty; simpl; [|discriminate].
  destruct (has_product d product_id) eqn:Hp; simpl; [|discriminate].
  destruct (fk_ok _ supplier_id) eqn:Hs; [|discriminate].
  intros E Hwf. inversion E; subst; clear E. destruct Hwf as [Hcat Hsup Hprod Htx Hnames Hpc Htp Hts Htt].
  constructor; simpl; try assumption.
  - apply keys_ok_snoc; [reflexivity | assumption].
  - apply Forall_app. split; [assumption|]. constructor; [exact Hp|constructor].
  - apply Forall_app. split; [assumption|]. constructor; [exact Hs|constructor].
  - apply Forall_app. split; [assumption|]. constructor; [exact Hty|constructor].
Qed.

Lemma NoDup_map_filter_any {A B} (g : A -> B) (f : A -> bool) (l : list A) :
  NoDup (map g l) -> NoDup (map g (filter f l)).
Proof.
  induction l as [|r l IH]; simpl; intros H; [constructor|].
  inversion H as [|? ? Hnotin Hnd]; subst.
  destruct (f r); simpl; [constructor|]; auto.
  intros Hin. apply Hnotin. apply in_map_iff in Hin. destruct Hin as (x & E & Hx).
  apply filter_In in Hx. rewrite <- E. apply in_map. tauto.
Qed.

Lemma Forall_filter {A} (P : A -> Prop) (f : A -> bool) (l : list A) :
  Forall P l -> Forall P (filter f l).
Proof. apply incl_Forall, incl_filter. Qed.

Section UpdateWhere.
Context {A : Type} (key : A -> Z).

Lemma existsb_key_map (l : list A) (k : Z) :
  existsb (fun r => key r =? k) l = existsb (fun v => v =? k) (map key l).
Proof. induction l as [|r l IH]; simpl; [reflexivity | rewrite IH; reflexivity]. Qed.

Lemma existsb_key_update_where (k k' : Z) (f : A -> A) (l : list A) :
  (forall r, key (f r) = key r) ->
  existsb (fun r => key r =? k') (update_where key k f l)
  = existsb (fun r => key r =? k') l.
Proof.
  intros Hf. rewrite !existsb_key_map, map_key_update_where by exact Hf. reflexivity.
Qed.

Lemma update_where_absent (k : Z) (f : A -> A) (l : list A) :
  existsb (fun r => key r =? k) l = false -> update_where key k f l = l.
Proof.
  intros H. unfold update_where. rewrite <- (map_id l) at 2. apply map_ext_in.
  intros r Hr. destruct (key r =? k) eqn:E; [|reflexivity].
  assert (existsb (fun r => key r =? k) l = true)
    by (apply existsb_exists; exists r; split; assumption).
  congruence.
Qed.

Lemma Forall_update_where (P : A -> Prop) (k : Z) (f : A -> A) (l : list A) :
  Forall P l ->
  (forall r, In r l -> key r = k -> P (f r)) ->
  Forall P (update_where key k f l).
Proof.
  intros Hall Hf. unfold update_where. apply Forall_forall. intros x Hx.
  apply in_map_iff in Hx. destruct Hx as (r & E & Hr). subst x.
  destruct (Z.eqb_spec (key r) k) as [Ek|Ek].
  - apply Hf; assumption.
  - rewrite Forall_forall in Hall. apply Hall. exact Hr.
Qed.

End UpdateWhere.

Lemma NoDup_names_update (l : list category) (k : Z) (name : string)
      (description : option string) :
  NoDup (map cat_id l) -> NoDup (map cat_name l) ->
  (forall c, In c l -> cat_name c = name -> cat_id c = k) ->
  NoDup (map cat_name
             (update_where cat_id k (fun c => mk_category (cat_id c) name description) l)).
Proof.
  induction l as [|c l IH]; simpl; intros Hids Hnames Hown; [constructor|].
  inversion Hids as [|? ? Hid_notin Hids']; subst.
  inversion Hnames as [|? ? Hname_notin Hnames']; subst.
  assert (Hown' : forall c', In c' l -> cat_name c' = name -> cat_id c' = k)
    by (intros c' Hc'; apply Hown; right; exact Hc').
  destruct (Z.eqb_spec (cat_id c) k) as [Ek|Ek]; simpl.
  - assert (Habs : existsb (fun r => cat_id r =? k) l = false).
    { destruct (existsb _ l) eqn:E; [|reflexivity].
      apply existsb_key_iff in E. congruence. }
    rewrite (update_where_absent cat_id k _ l Habs). constructor; [|exact Hnames'].
    intros Hin. apply in_map_iff in Hin. destruct Hin as (c' & E & Hc').
    apply Hid_notin. rewrite Ek, <- (Hown' c' Hc' E). apply in_map. exact Hc'.
  - constructor; [|apply IH; assumption].
    intros Hin. apply in_map_iff in Hin. destruct Hin as (x & E & Hx).
    unfold update_where in Hx. apply in_map_iff in Hx. destruct Hx as (c' & E' & Hc').
    subst x. destruct (cat_id c' =? k); simpl in E.
    + apply Ek. apply Hown; [left; reflexivity | symmetry; exact E].
    + apply Hname_notin. rewrite <- E. apply in_map. exact Hc'.
Qed.

Lemma wf_update_category (category_id : Z) (name : string)
      (description : option string) (d : db) (f : effect) :
  update_category_stmt category_id name description d = inr f ->
  wf_db d -> wf_db (eff_db f).
Proof.
  unfold update_category_stmt. destruct (_ && _) eqn:Hc; [discriminate|].
  intros E Hwf. inversion E; subst; clear E. destruct Hwf as [Hcat Hsup Hprod Htx Hnames Hpc Htp Hts Htt].
  assert (Hkeys : map cat_id
                    (update_where cat_id category_id
                       (fun c => mk_category (cat_id c) name description) (categories d))
                  = map cat_id (categories d))
    by (apply map_key_update_where; reflexivity).
  constructor; simpl; try assumption.
  - rewrite Hkeys. assumption.
  - destruct (has_category d category_id) eqn:Hhas; simpl in Hc.
    + destruct Hcat as (_ & Hnd & _).
      apply NoDup_names_update; try assumption.
      intros c Hin Hname. destruct (Z.eqb_spec (cat_id c) category_id) as [Ek|Ek]; [exact Ek|].
      exfalso.
      assert (Hex : existsb (fun c => String.eqb (cat_name c) name
                                       && negb (cat_id c =? category_id))
                            (categories d) = true).
      { apply existsb_exists. exists c. split; [exact Hin|].
        apply andb_true_iff. split; [apply String.eqb_eq; exact Hname|].
        apply negb_true_iff, Z.eqb_neq. exact Ek. }
      congruence.
    + unfold has_category in Hhas. rewrite update_where_absent by exact Hhas. assumption.
  - eapply Forall_impl; [|exact Hpc]. simpl. intros p. apply fk_ok_mono.
    intros v _. unfold has_category. simpl.
    rewrite existsb_key_update_where by reflexivity. trivial.
Qed.

Lemma wf_update_supplier (supplier_id : Z) (name : string)
      (contact_info address : option string) (d : db) (f : effect) :
  update_supplier_stmt supplier_id name contact_info address d = inr f ->
  wf_db d -> wf_db (eff_db f).
Proof.
  unfold update_supplier_stmt. intros E Hwf. inversion E; subst; clear E. destruct Hwf as [Hcat Hsup Hprod Htx Hnames Hpc Htp Hts Htt].
  constructor; simpl; try assumption.
  - rewrite map_key_update_where by reflexivity. assumption.
  - eapply Forall_impl; [|exact Hts]. simpl. intros t. apply fk_ok_mono.
    intros v _. unfold has_supplier. simpl.
    rewrite existsb_key_update_where by reflexivity. trivial.
Qed.

Lemma wf_update_product (product_id : Z) (name : string)
      (description : option string) (category_id : option Z) (price : Q)
      (reorder_level : Z) (d : db) (f : effect) :
  update_product_stmt product_id name description category_id price reorder_level d
  = inr f ->
  wf_db d -> wf_db (eff_db f).
Proof.
  unfold update_product_stmt. destruct (_ && _) eqn:Hc; [discriminate|].
  intros E Hwf. inversion E; subst; clear E. destruct Hwf as [Hcat Hsup Hprod Htx Hnames Hpc Htp Hts Htt].
  constructor; simpl; try assumption.
  - rewrite map_key_update_where by reflexivity. assumption.
  - apply Forall_update_where; [assumption|]. simpl. intros p Hp Hk.
    assert (Hhas : has_product d product_id = true).
    { apply existsb_exists. exists p. split; [exact Hp | apply Z.eqb_eq; exact Hk]. }
    rewrite Hhas in Hc. simpl in Hc. apply negb_false_iff in Hc. exact Hc.
  - eapply Forall_impl; [|exact Htp]. simpl. intros t.
    unfold has_product. simpl.
    rewrite existsb_key_update_where by reflexivity. trivial.
Qed.

Lemma wf_update_transaction (transaction_id product_id : Z)
      (transaction_type : string) (quantity : Z) (supplier_id : option Z)
      (notes : option string) (d : db) (f : effect) :
  update_transaction_stmt transaction_id product_id transaction_type quantity
                          supplier_id notes d = inr f ->
  wf_db d -> wf_db (eff_db f).
Proof.
  unfold update_transaction_stmt.
  destruct (has_transaction d transaction_id && negb _) eqn:Hc1; [discriminate|].
  destruct (has_transaction d transaction_id && negb (_ && _)) eqn:Hc2; [discriminate|].
  intros E Hwf. inversion E; subst; clear E. destruct Hwf as [Hcat Hsup Hprod Htx Hnames Hpc Htp Hts Htt].
  assert (Hrow : forall t, In t (inventory_transactions d) -> tx_id t = transaction_id ->
                           has_transaction d transaction_id = true).
  { intros t Ht Hk. apply existsb_exists. exists t.
    split; [exact Ht | apply Z.eqb_eq; exact Hk]. }
  constructor; simpl; try assumption.
  - rewrite map_key_update_where by reflexivity. assumption.
  - apply Forall_update_where; [assumption|]. simpl. intros t Ht Hk.
    rewrite (Hrow t Ht Hk) in Hc2. simpl in Hc2.
    apply negb_false_iff, andb_true_iff in Hc2. apply Hc2.
  - apply Forall_update_where; [assumption|]. simpl. intros t Ht Hk.
    rewrite (Hrow t Ht Hk) in Hc2. simpl in Hc2.
    apply negb_false_iff, andb_true_iff in Hc2. apply Hc2.
  - apply Forall_update_where; [assumption|]. simpl. intros t Ht Hk.
    rewrite (Hrow t Ht Hk) in Hc1. simpl in Hc1.
    apply negb_false_iff in Hc1. exact Hc1.
Qed.

Lemma wf_delete_category (category_id : Z) (d : db) (f : effect) :
  delete_category_stmt category_id d = inr f -> wf_db d -> wf_db (eff_db f).
Proof.
  unfold delete_category_stmt. destruct (_ && _) eqn:Hc; [discriminate|].
  intros E Hwf. inversion E; subst; clear E.
  destruct Hwf as [Hcat Hsup Hprod Htx Hnames Hpc Htp Hts Htt].
  constructor; simpl; try assumption.
  - apply keys_ok_filter. exact Hcat.
  - apply NoDup_map_filter_any. exact Hnames.
  - rewrite Forall_forall in *. intros p Hp. specialize (Hpc p Hp).
    destruct (prod_category_id p) as [v|] eqn:Ev; simpl in *; [|reflexivity].
    unfold has_category in *. simpl.
    apply existsb_key_iff, in_keys_delete. split; [apply existsb_key_iff; exact Hpc|].
    intros ->. rewrite Hpc in Hc. simpl in Hc.
    assert (Hex : existsb (fun p => Sql.eq_opt (prod_category_id p) category_id)
                          (products d) = true).
    { apply existsb_exists. exists p. split; [exact Hp|].
      rewrite Ev. simpl. apply Z.eqb_refl. }
    congruence.
Qed.

Lemma wf_delete_supplier (supplier_id : Z) (d : db) (f : effect) :
  delete_supplier_stmt supplier_id d = inr f -> wf_db d -> wf_db (eff_db f).
Proof.
  unfold delete_supplier_stmt. destruct (_ && _) eqn:Hc; [discriminate|].
  intros E Hwf. inversion E; subst; clear E.
  destruct Hwf as [Hcat Hsup Hprod Htx Hnames Hpc Htp Hts Htt].
  constructor; simpl; try assumption.
  - apply keys_ok_filter. exact Hsup.
  - rewrite Forall_forall in *. intros t Ht. specialize (Hts t Ht).
    destruct (tx_supplier_id t) as [v|] eqn:Ev; simpl in *; [|reflexivity].
    unfold has_supplier in *. simpl.
    apply existsb_key_iff, in_keys_delete. split; [apply existsb_key_iff; exact Hts|].
    intros ->. rewrite Hts in Hc. simpl in Hc.
    assert (Hex : existsb (fun t => Sql.eq_opt (tx_supplier_id t) supplier_id)
                          (inventory_transactions d) = true).
    { apply existsb_exists. exists t. split; [exact Ht|].
      rewrite Ev. simpl. apply Z.eqb_refl. }
    congruence.
Qed.

Lemma wf_delete_product (product_id : Z) (d : db) (f : effect) :
  delete_product_stmt product_id d = inr f -> wf_db d -> wf_db (eff_db f).
Proof.
  unfold delete_product_stmt. destruct (_ && _) eqn:Hc; [discriminate|].
  intros E Hwf. inversion E; subst; clear E.
  destruct Hwf as [Hcat Hsup Hprod Htx Hnames Hpc Htp Hts Htt].
  constructor; simpl; try assumption.
  - apply keys_ok_filter. exact Hprod.
  - apply Forall_filter. exact Hpc.
  - rewrite Forall_forall in *. intros t Ht. specialize (Htp t Ht).
    unfold has_product in *. simpl.
    apply existsb_key_iff, in_keys_delete. split; [apply existsb_key_iff; exact Htp|].
    intros E. rewrite E in Htp. rewrite Htp in Hc. simpl in Hc.
    assert (Hex : existsb (fun t => tx_product_id t =? product_id)
                          (inventory_transactions d) = true).
    { apply existsb_exists. exists t. split; [exact Ht | apply Z.eqb_eq; exact E]. }
    congruence.
Qed.

Lemma wf_delete_transaction (transaction_id : Z) (d : db) (f : effect) :
  delete_transaction_stmt transaction_id d = inr f -> wf_db d -> wf_db (eff_db f).
Proof.
  unfold delete_transaction_stmt. intros E Hwf. inversion E; subst; clear E.
  destruct Hwf as [Hcat Hsup Hprod Htx Hnames Hpc Htp Hts Htt].
  constructor; simpl; try assumption; try (apply Forall_filter; assumption).
  apply keys_ok_filter. exact Htx.
Qed.

(** A method either leaves the tables as they were or installs the tables
    its one data-changing statement produced. *)
Ltac unfold_method :=
  unfold after, result_of,
    create_category, update_category, delete_category,
    create_supplier, update_supplier, delete_supplier,
    create_product, update_product, delete_product,
    create_transaction, update_transaction, delete_transaction,
    validate_transaction_type,
    try_except, bind, execute, execute_query, commit,
    get_lastrowid, get_rowcount, ret, raise.

Ltac preserve_with stmt lem :=
  let E := fresh "E" in
  destruct stmt as [?|?] eqn:E; simpl;
  [assumption | eapply lem; eassumption].

Lemma wf_run_call (k : call) (c : conn) :
  wf_db (store c) -> wf_db (store (run_call k c)).
Proof.
  intros Hwf. destruct k; unfold run_call; unfold_method.
  - preserve_with (insert_category name description (store c)) wf_insert_category.
  - preserve_with (update_category_stmt category_id name description (store c))
                  wf_update_category.
  - simpl. destruct (count_where _ _ >? 0); simpl; [assumption|].
    preserve_with (delete_category_stmt category_id (store c)) wf_delete_category.
  - preserve_with (insert_supplier name contact_info address (store c))
                  wf_insert_supplier.
  - preserve_with (update_supplier_stmt supplier_id name contact_info address (store c))
                  wf_update_supplier.
  - simpl. destruct (count_where _ _ >? 0); simpl; [assumption|].
    preserve_with (delete_supplier_stmt supplier_id (store c)) wf_delete_supplier.
  - preserve_with (insert_product name description category_id price reorder_level
                                  (store c))
                  wf_insert_product.
  - preserve_with (update_product_stmt product_id name description category_id price
                                       reorder_level (store c))
                  wf_update_product.
  - simpl. destruct (count_where _ _ >? 0); simpl; [assumption|].
    preserve_with (delete_product_stmt product_id (store c)) wf_delete_product.
  - destruct (negb (valid_transaction_type transaction_type)); simpl; [assumption|].
    preserve_with (insert_transaction product_id transaction_type quantity supplier_id
                                      notes (store c))
                  wf_insert_transaction.
  - destruct (negb (valid_transaction_type transaction_type)); simpl; [assumption|].
    preserve_with (update_transaction_stmt transaction_id product_id transaction_type
                                           quantity supplier_id notes (store c))
                  wf_update_transaction.
  - preserve_with (delete_transaction_stmt transaction_id (store c))
                  wf_delete_transaction.
Qed.

Lemma wf_run_calls (ks : list call) (c : conn) :
  wf_db (store c) -> wf_db (store (run_calls ks c)).
Proof.
  revert c. induction ks as [|k ks IH]; intros c Hwf; simpl; [exact Hwf|].
  apply IH, wf_run_call, Hwf.
Qed.

(** X16.  Every state reached from a new store through repository calls
    satisfies the constraints of the schema: keys are unique, positive and
    at most the counter of their table, category names are unique, every
    category, product and supplier reference names an existing row, and
    every transaction type is one of IN, OUT, ADJUSTMENT. *)
Theorem reachable_wf (d : db) : reachable d -> wf_db d.
Proof.
  intros [ks <-]. apply wf_run_calls. exact wf_empty_db.
Qed.

Lemma wf_sample : wf_db (store sample).
Proof. apply wf_run_calls. exact wf_empty_db. Qed.


Example delete_out_raises_stock :
  result_of (get_product_stock 1) (after (delete_transaction 5) sample) = Return 10.
Proof. reflexivity. Qed.

(** ** Creation fails closed *)

Lemma create_category_run (n : string) (ds : option string) (c : conn) :
  create_category n ds c
  = match insert_category n ds (store c) with
    | inl _ => (Return None,
                mk_conn (store c) (lastrowid c) (rowcount c) (S (executed c)))
    | inr f => (Return (Some (Sql.coalesce (eff_lastrowid f) (lastrowid c))),
                mk_conn (eff_db f) (Sql.coalesce (eff_lastrowid f) (lastrowid c))
                        (eff_rowcount f) (S (executed c)))
    end.
Proof. unfold_method. destruct (insert_category n ds (store c)); reflexivity. Qed.

Lemma create_supplier_run (n : string) (ci a : option string) (c : conn) :
  create_supplier n ci a c
  = match insert_supplier n ci a (store c) with
    | inl _ => (Return None,
                mk_conn (store c) (lastrowid c) (rowcount c) (S (executed c)))
    | inr f => (Return (Some (Sql.coalesce (eff_lastrowid f) (lastrowid c))),
                mk_conn (eff_db f) (Sql.coalesce (eff_lastrowid f) (lastrowid c))
                        (eff_rowcount f) (S (executed c)))
    end.
Proof. reflexivity. Qed.

Lemma create_product_run (n : string) (ds : option string) (cid : option Z)
      (price : Q) (rl : Z) (c : conn) :
  create_product n ds cid price rl c
  = match insert_product n ds cid price rl (store c) with
    | inl _ => (Return None,
                mk_conn (store c) (lastrowid c) (rowcount c) (S (executed c)))
    | inr f => (Return (Some (Sql.coalesce (eff_lastrowid f) (lastrowid c))),
                mk_conn (eff_db f) (Sql.coalesce (eff_lastrowid f) (lastrowid c))
                        (eff_rowcount f) (S (executed c)))
    end.
Proof. unfold_method. destruct (insert_product n ds cid price rl (store c)); reflexivity. Qed.

Lemma create_transaction_bad_type (p : Z) (ty : string) (q : Z) (s : option Z)
      (n : option string) (c : conn) :
  valid_transaction_type ty = false ->
  create_transaction p ty q s n c = (Return None, c).
Proof. intros H. unfold_method. rewrite H. reflexivity. Qed.

Lemma create_transaction_good_type (p : Z) (ty : string) (q : Z) (s : option Z)
      (n : option string) (c : conn) :
  valid_transaction_type ty = true ->
  create_transaction p ty q s n c
  = match insert_transaction p ty q s n (store c) with
    | inl _ => (Return None,
                mk_conn (store c) (lastrowid c) (rowcount c) (S (executed c)))
    | inr f => (Return (Some (Sql.coalesce (eff_lastrowid f) (lastrowid c))),
                mk_conn (eff_db f) (Sql.coalesce (eff_lastrowid f) (lastrowid c))
                        (eff_rowcount f) (S (executed c)))
    end.
Proof.
  intros H. unfold_method. rewrite H. simpl.
  destruct (insert_transaction p ty q s n (store c)); reflexivity.
Qed.

(** C4.  A create call whose request breaks a uniqueness, foreign-key or
    enumeration constraint returns None as an ordinary result (nothing is
    raised to the caller) and leaves every table as it was; when it is the
    transaction type that is wrong, no statement at all is handed to the
    store. *)
Theorem create_fails_closed (r : creation) (c : conn) :
  constraint_violated r (store c) = true ->
  result_of (create r) c = Return None
  /\ store (after (create r) c) = store c
  /\ (bad_type r = true -> after (create r) c = c).
Proof.
  intros Hv. unfold result_of, after.
  destruct r as [n ds|n ci a|n ds cid price rl|p ty q s n]; simpl in *.
  - rewrite create_category_run. unfold insert_category. rewrite Hv. simpl.
    repeat split. discriminate.
  - discriminate.
  - rewrite create_product_run. unfold insert_product.
    apply negb_true_iff in Hv. rewrite Hv. simpl. repeat split. discriminate.
  - destruct (valid_transaction_type ty) eqn:Hty; simpl in *.
    + rewrite (create_transaction_good_type _ _ _ _ _ _ Hty).
      unfold insert_transaction. rewrite Hty. simpl.
      rewrite <- negb_andb in Hv. apply negb_true_iff in Hv. rewrite Hv. simpl.
      repeat split. discriminate.
    + rewrite (create_transaction_bad_type _ _ _ _ _ _ Hty). simpl. repeat split.
Qed.


Lemma create_fails_closed_witness :
  (result_of (create (NewCategory "Books" None)) sample = Return None
   /\ store (after (create (NewCategory "Books" None)) sample) = store sample)
  /\ (result_of (create (NewProduct "Test" (Some "Test") (Some 99999) (10 # 1) 5)) sample
      = Return None)
  /\ after (create (NewTransaction 1 "INVALID" 10 None None)) sample = sample.
Proof.
  split; [|split].
  - destruct (create_fails_closed (NewCategory "Books" None) sample) as (H1 & H2 & _);
      [vm_compute; reflexivity | split; assumption].
  - destruct (create_fails_closed
                (NewProduct "Test" (Some "Test") (Some 99999) (10 # 1) 5) sample)
      as (H1 & _); [vm_compute; reflexivity | exact H1].
  - destruct (create_fails_closed (NewTransaction 1 "INVALID" 10 None None) sample)
      as (_ & _ & H3); [vm_compute; reflexivity | apply H3; reflexivity].
Defined.

(** ** Deletion is refused while dependents exist *)

Lemma count_where_gtb {A} (cond : A -> bool) (l : list A) :
  (count_where cond l >? 0) = negb (Nat.eqb (List.length (filter cond l)) 0).
Proof.
  unfold count_where, Sql.count_star. destruct (filter cond l); reflexivity.
Qed.

Lemma no_match_existsb {A} (cond : A -> bool) (l : list A) :
  List.length (filter cond l) = 0%nat -> existsb cond l = false.
Proof.
  intros H. destruct (existsb cond l) eqn:E; [|reflexivity].
  apply existsb_exists in E. destruct E as (x & Hx & Hc).
  assert (Hin : In x (filter cond l)) by (apply filter_In; split; assumption).
  destruct (filter cond l); [destruct Hin | discriminate].
Qed.

Lemma present_count {A} (key : A -> Z) (k : Z) (l : list A) :
  existsb (fun r => key r =? k) l = true ->
  (count_where (fun r => key r =? k) l >? 0) = true.
Proof.
  intros H. apply existsb_exists in H. destruct H as (x & Hx & Hk).
  exact (count_where_pos _ _ x Hx Hk).
Qed.

Lemma absent_after_delete {A} (key : A -> Z) (k : Z) (l : list A) :
  existsb (fun r => key r =? k) (filter (fun r => negb (key r =? k)) l) = false.
Proof.
  destruct (existsb _ _) eqn:E; [|reflexivity].
  apply existsb_exists in E. destruct E as (x & Hx & Hk).
  apply filter_In in Hx. destruct Hx as [_ Hx]. rewrite Hk in Hx. discriminate.
Qed.

(** C5.  For a category, supplier or product that exists: while at least
    one dependent row references it (products for a category, transactions
    for a supplier or a product) the delete returns False and no table
    changes; with no dependent row the delete returns True, the row is
    absent afterwards and all other rows are as before. *)
Theorem delete_refused_with_dependents (r : removal) (c : conn) :
  row_present r (store c) = true ->
  ((0 < dependents r (store c))%nat ->
   result_of (delete r) c = Return false
   /\ store (after (delete r) c) = store c)
  /\ (dependents r (store c) = 0%nat ->
      result_of (delete r) c = Return true
      /\ store (after (delete r) c) = without_row r (store c)
      /\ row_present r (store (after (delete r) c)) = false).
Proof.
  intros Hrow. unfold result_of, after.
  destruct r as [k|k|k]; simpl in Hrow |- *; unfold_method;
    unfold execute_query; cbn beta iota; rewrite count_where_gtb.
  - split; intros Hdep.
    + destruct (List.length _) eqn:E; [lia|]. simpl. split; reflexivity.
    + rewrite Hdep. simpl. unfold delete_category_stmt.
      rewrite (no_match_existsb _ _ Hdep), andb_false_r. simpl.
      unfold has_category in *. rewrite (present_count cat_id k _ Hrow).
      repeat split. simpl. apply absent_after_delete.
  - split; intros Hdep.
    + destruct (List.length _) eqn:E; [lia|]. simpl. split; reflexivity.
    + rewrite Hdep. simpl. unfold delete_supplier_stmt.
      rewrite (no_match_existsb _ _ Hdep), andb_false_r. simpl.
      unfold has_supplier in *. rewrite (present_count sup_id k _ Hrow).
      repeat split. simpl. apply absent_after_delete.
  - split; intros Hdep.
    + destruct (List.length _) eqn:E; [lia|]. simpl. split; reflexivity.
    + rewrite Hdep. simpl. unfold delete_product_stmt.
      rewrite (no_match_existsb _ _ Hdep), andb_false_r. simpl.
      unfold has_product in *. rewrite (present_count prod_id k _ Hrow).
      repeat split. simpl. apply absent_after_delete.
Qed.

Lemma delete_refused_with_dependents_witness :
  let fresh := run_call (CreateCategory "Test Category" (Some "Test Description")) sample in
  (result_of (delete (RemoveCategory 1)) sample = Return false
   /\ store (after (delete (RemoveCategory 1)) sample) = store sample)
  /\ (result_of (delete (RemoveProduct 1)) sample = Return false)
  /\ (result_of (delete (RemoveSupplier 1)) sample = Return false)
  /\ (result_of (delete (RemoveCategory 5)) fresh = Return true
      /\ row_present (RemoveCategory 5) (store (after (delete (RemoveCategory 5)) fresh))
         = false).
Proof.
  intros fresh.
  destruct (delete_refused_with_dependents (RemoveCategory 1) sample) as [Hc _];
    [reflexivity|].
  destruct (delete_refused_with_dependents (RemoveProduct 1) sample) as [Hp _];
    [reflexivity|].
  destruct (delete_refused_with_dependents (RemoveSupplier 1) sample) as [Hs _];
    [reflexivity|].
  destruct (delete_refused_with_dependents (RemoveCategory 5) fresh) as [_ Hf];
    [reflexivity|].
  split; [apply Hc; vm_compute; lia|].
  split; [apply Hp; vm_compute; lia|].
  split; [apply Hs; vm_compute; lia|].
  destruct Hf as (H1 & _ & H3); [vm_compute; reflexivity|].
  split; [exact H1 | exact H3].
Defined.

(** ** Prices *)

Lemma prices_after_insert (n : string) (ds : option string) (cid : option Z)
      (price : Q) (rl : Z) (d : db) (f : effect) :
  insert_product n ds cid price rl d = inr f ->
  (0 <= price)%Q -> prices_nonneg d -> prices_nonneg (eff_db f).
Proof.
  unfold insert_product. destruct (fk_ok _ _); [|discriminate].
  intros E Hp Hd. inversion E; subst; clear E. unfold prices_nonneg in *. simpl.
  apply Forall_app. split; [exact Hd|]. constructor; [exact Hp|constructor].
Qed.

Lemma prices_after_update (k : Z) (n : string) (ds : option string) (cid : option Z)
      (price : Q) (rl : Z) (d : db) (f : effect) :
  update_product_stmt k n ds cid price rl d = inr f ->
  (0 <= price)%Q -> prices_nonneg d -> prices_nonneg (eff_db f).
Proof.
  unfold update_product_stmt. destruct (_ && _); [discriminate|].
  intros E Hp Hd. inversion E; subst; clear E. unfold prices_nonneg in *. simpl.
  apply Forall_update_where; [exact Hd|]. intros; exact Hp.
Qed.

Lemma prices_after_delete (k : Z) (d : db) (f : effect) :
  delete_product_stmt k d = inr f -> prices_nonneg d -> prices_nonneg (eff_db f).
Proof.
  unfold delete_product_stmt. destruct (_ && _); [discriminate|].
  intros E Hd. inversion E; subst; clear E. unfold prices_nonneg in *. simpl.
  apply Forall_filter. exact Hd.
Qed.

(** A statement on another table leaves the products as they are. *)
Ltac frame_products stmt :=
  let E := fresh "E" in
  destruct stmt as [?|?] eqn:E; simpl; [assumption|];
  unfold insert_category, update_category_stmt, delete_category_stmt,
    insert_supplier, update_supplier_stmt, delete_supplier_stmt,
    insert_transaction, update_transaction_stmt, delete_transaction_stmt in E;
  repeat match type of E with
         | (if ?b then _ else _) = _ => destruct b; try discriminate E
         end;
  inversion E; subst; simpl; assumption.

Lemma prices_run_call (k : call) (c : conn) :
  supplies_nonneg_price k ->
  prices_nonneg (store c) -> prices_nonneg (store (run_call k c)).
Proof.
  intros Hk Hd. destruct k; unfold run_call; unfold_method; simpl in Hk.
  - frame_products (insert_category name description (store c)).
  - frame_products (update_category_stmt category_id name description (store c)).
  - simpl. destruct (count_where _ _ >? 0); simpl; [assumption|].
    frame_products (delete_category_stmt category_id (store c)).
  - frame_products (insert_supplier name contact_info address (store c)).
  - frame_products (update_supplier_stmt supplier_id name contact_info address (store c)).
  - simpl. destruct (count_where _ _ >? 0); simpl; [assumption|].
    frame_products (delete_supplier_stmt supplier_id (store c)).
  - destruct (insert_product name description category_id price reorder_level (store c))
      as [?|f] eqn:E; simpl; [assumption|].
    exact (prices_after_insert _ _ _ _ _ _ _ E Hk Hd).
  - destruct (update_product_stmt product_id name description category_id price
                                  reorder_level (store c))
      as [?|f] eqn:E; simpl; [assumption|].
    exact (prices_after_update _ _ _ _ _ _ _ _ E Hk Hd).
  - simpl. destruct (count_where _ _ >? 0); simpl; [assumption|].
    destruct (delete_product_stmt product_id (store c)) as [?|f] eqn:E; simpl;
      [assumption|].
    exact (prices_after_delete _ _ _ E Hd).
  - destruct (negb (valid_transaction_type transaction_type)); simpl; [assumption|].
    frame_products (insert_transaction product_id transaction_type quantity supplier_id
                                       notes (store c)).
  - destruct (negb (valid_transaction_type transaction_type)); simpl; [assumption|].
    frame_products (update_transaction_stmt transaction_id product_id transaction_type
                                            quantity supplier_id notes (store c)).
  - frame_products (delete_transaction_stmt transaction_id (store c)).
Qed.

(** C9, as amended.  Neither the schema nor create_product / update_product
    looks at the sign of a price; what keeps prices non-negative is the
    caller: after any sequence of repository calls in which every
    create_product and update_product is given a non-negative price, no
    stored product has a negative price. *)
Theorem prices_nonneg_when_supplied_nonneg (ks : list call) (c : conn) :
  Forall supplies_nonneg_price ks ->
  prices_nonneg (store c) ->
  prices_nonneg (store (run_calls ks c)).
Proof.
  revert c. induction ks as [|k ks IH]; intros c Hks Hd; simpl; [exact Hd|].
  inversion Hks; subst. apply IH; [assumption|]. apply prices_run_call; assumption.
Qed.

Lemma prices_nonneg_when_supplied_nonneg_witness : prices_nonneg (store sample).
Proof.
  apply (prices_nonneg_when_supplied_nonneg sample_calls (connect empty_db)).
  - unfold sample_calls.
    repeat (constructor; [simpl; try exact I; discriminate|]). constructor.
  - constructor.
Defined.

(** C9, as stated, fails: one create_product call with a negative price on
    a new store is accepted and the negative price is stored. *)
Lemma negative_price_is_stored :
  ~ (forall d, reachable d -> prices_nonneg d).
Proof.
  intros H.
  specialize (H (store (run_calls [CreateProduct "Refund" None None (-1 # 1) 10]
                                  (connect empty_db)))).
  assert (Hr : reachable (store (run_calls [CreateProduct "Refund" None None (-1 # 1) 10]
                                           (connect empty_db))))
    by (eexists; reflexivity).
  specialize (H Hr). vm_compute in H. inversion H as [|? ? Hneg _]; subst.
  apply Hneg. reflexivity.
Qed.

(** ** The relational operators *)

Section OrderBy.
Context {A : Type} (leb : A -> A -> bool).
Hypothesis leb_total : forall a b, leb a b = true \/ leb b a = true.
Hypothesis leb_trans : forall a b c, leb a b = true -> leb b c = true -> leb a c = true.

Lemma insert_sorted_perm (x : A) (l : list A) :
  Permutation (Sql.insert_sorted leb x l) (x :: l).
Proof.
  induction l as [|y r IH]; simpl; [apply Permutation_refl|].
  destruct (leb x y); [apply Permutation_refl|].
  eapply Permutation_trans; [apply perm_skip, IH | apply perm_swap].
Qed.

Lemma order_by_perm (l : list A) : Permutation (Sql.order_by leb l) l.
Proof.
  induction l as [|x l IH]; simpl; [constructor|].
  eapply Permutation_trans; [apply insert_sorted_perm | apply perm_skip, IH].
Qed.

Lemma insert_sorted_sorted (x : A) (l : list A) :
  StronglySorted (fun a b => leb a b = true) l -> StronglySorted (fun a b => leb a b = true) (Sql.insert_sorted leb x l).
Proof.
  induction l as [|y r IH]; simpl; intros Hs.
  - repeat constructor.
  - apply StronglySorted_inv in Hs. destruct Hs as [Hr Hy].
    destruct (leb x y) eqn:E.
    + constructor; [constructor; assumption|].
      constructor; [exact E|].
      eapply Forall_impl; [|exact Hy]. intros z Hz. exact (leb_trans _ _ _ E Hz).
    + constructor; [apply IH; exact Hr|].
      assert (Hyx : leb y x = true) by (destruct (leb_total x y); [congruence | assumption]).
      eapply Permutation_Forall; [apply Permutation_sym, insert_sorted_perm|].
      constructor; assumption.
Qed.

Lemma order_by_sorted (l : list A) : StronglySorted (fun a b => leb a b = true) (Sql.order_by leb l).
Proof.
  induction l as [|x l IH]; simpl; [constructor | apply insert_sorted_sorted, IH].
Qed.

End OrderBy.

Lemma filter_none {A} (f : A -> bool) (l : list A) :
  (forall x, In x l -> f x = false) -> filter f l = [].
Proof.
  induction l as [|x l IH]; simpl; intros H; [reflexivity|].
  rewrite (H x (or_introl eq_refl)). apply IH. intros y Hy. apply H. right. exact Hy.
Qed.


Lemma flat_map_single {A B} (g : A -> B) (f : A -> list B) (l : list A) :
  (forall a, In a l -> f a = [g a]) -> flat_map f l = map g l.
Proof.
  induction l as [|a l IH]; simpl; intros H; [reflexivity|].
  rewrite (H a (or_introl eq_refl)). simpl. f_equal.
  apply IH. intros b Hb. apply H. right. exact Hb.
Qed.

Section LeftJoin.
Context {A B : Type} (key : B -> Z).

(** A condition that pins the key of the right row selects at most one row
    of a table with unique keys. *)
Lemma filter_unique_key (f : B -> bool) (k : Z) (r : list B) :
  NoDup (map key r) ->
  (forall b, f b = true -> key b = k) ->
  filter f r = match find f r with Some b => [b] | None => [] end.
Proof.
  intros Hnd Hf. induction r as [|b r IH]; simpl; [reflexivity|].
  inversion Hnd as [|? ? Hnotin Hnd']; subst.
  destruct (f b) eqn:Eb; [|apply IH; exact Hnd'].
  f_equal. apply filter_none. intros x Hx.
  destruct (f x) eqn:Ex; [|reflexivity].
  exfalso. apply Hnotin. rewrite (Hf b Eb), <- (Hf x Ex). apply in_map. exact Hx.
Qed.

Lemma left_join_unique (on : A -> B -> bool) (k : A -> Z) (l : list A) (r : list B) :
  NoDup (map key r) ->
  (forall a b, on a b = true -> key b = k a) ->
  Sql.left_join on l r = map (fun a => (a, find (on a) r)) l.
Proof.
  intros Hnd Hon. unfold Sql.left_join. apply flat_map_single. intros a _.
  rewrite (filter_unique_key (on a) (k a) r Hnd (Hon a)).
  destruct (find (on a) r); reflexivity.
Qed.

End LeftJoin.

Lemma products_categories_rows (d : db) :
  wf_db d ->
  products_categories d = map (fun p => (p, category_of d p)) (products d).
Proof.
  intros Hwf. unfold products_categories, category_of.
  apply (left_join_unique cat_id _
           (fun p => match prod_category_id p with Some v => v | None => 0 end)).
  - destruct (wf_categories _ Hwf) as (_ & Hnd & _). exact Hnd.
  - intros p c. destruct (prod_category_id p) as [v|]; simpl; [|discriminate].
    intros E. apply Z.eqb_eq in E. symmetry. exact E.
Qed.

Section GroupBy.
Context {B : Type} (same : B -> B -> bool).



End GroupBy.

(** ** One group per product *)

Section ProductGroups.
Context {X : Type} (pid : X -> Z)
        (same : X * option transaction -> X * option transaction -> bool).
Variable d : db.





Hypothesis same_refl : forall x t t', same (x, t) (x, t') = true.
Hypothesis same_diff : forall x x' t t', pid x <> pid x' -> same (x, t) (x', t') = false.


End ProductGroups.







Lemma filter_of_map {A B} (f : B -> bool) (g : A -> B) (l : list A) :
  filter f (map g l) = map g (filter (fun a => f (g a)) l).
Proof.
  induction l as [|a l IH]; simpl; [reflexivity|].
  destruct (f (g a)); simpl; rewrite IH; reflexivity.
Qed.



(** ** Low stock *)



Example sample_low_stock : result_of get_low_stock_products sample = Return [].
Proof. reflexivity. Qed.

(** The sample store after selling 7 more laptops and 40 more T-shirts:
    Laptop has stock 1 against reorder level 5, T-Shirt 5 against 20. *)
Example sample_low_stock_after_sales :
  option_map (map inv_name)
    (match result_of get_low_stock_products
             (run_calls [CreateTransaction 2 "OUT" 40 None None;
                         CreateTransaction 1 "OUT" 7 None None] sample)
     with Return rows => Some rows | Raise _ => None end)
  = Some ["Laptop"; "T-Shirt"].
Proof. reflexivity. Qed.


(** ** Inventory value *)






(** Laptop 8 x 999.99, T-Shirt 45 x 19.99, book 25 x 49.99, hose 30 x 29.99. *)
Example sample_inventory_value :
  exists v, result_of get_inventory_value sample = Return v
            /\ (total_value v == 1104892 # 100)%Q
            /\ (avg_price v == 27499 # 100)%Q
            /\ total_products v = 4.
Proof. eexists. split; [reflexivity|]. repeat split. Qed.

Example empty_inventory_value :
  result_of get_inventory_value (connect empty_db) = Return (mk_inventory_value 0 0 0).
Proof. reflexivity. Qed.

(** A product driven to stock -2 takes its negative value into the total. *)
Example negative_stock_counts :
  exists v,
    result_of get_inventory_value
              (run_calls [CreateProduct "Widget" None None (5 # 1) 0;
                          CreateTransaction 1 "OUT" 2 None None] (connect empty_db))
    = Return v
    /\ (total_value v == -10 # 1)%Q /\ total_products v = 1.
Proof. eexists. split; [reflexivity|]. repeat split. Qed.


(** ** The top-valued products of the value report *)



Example sample_top_products :
  option_map (map vr_name)
    (match result_of top_products sample with Return rows => Some rows | Raise _ => None end)
  = Some ["Laptop"; "Python Programming Book"; "Garden Hose"; "T-Shirt"].
Proof. reflexivity. Qed.

(** Seven products priced 1 to 7; stocks 3, 0, 2, 9, 1, 4 and -1 give the
    values 3, 0, 6, 36, 5, 24 and -7: five lines, best first, the products
    without positive stock left out. *)
Example top_five_of_seven :
  option_map (map (fun r => (vr_name r, vr_current_stock r)))
    (match result_of top_products
             (run_calls
                [CreateProduct "P1" None None (1 # 1) 0; CreateProduct "P2" None None (2 # 1) 0;
                 CreateProduct "P3" None None (3 # 1) 0; CreateProduct "P4" None None (4 # 1) 0;
                 CreateProduct "P5" None None (5 # 1) 0; CreateProduct "P6" None None (6 # 1) 0;
                 CreateProduct "P7" None None (7 # 1) 0;
                 CreateTransaction 1 "IN" 3 None None; CreateTransaction 3 "IN" 2 None None;
                 CreateTransaction 4 "IN" 9 None None; CreateTransaction 5 "IN" 1 None None;
                 CreateTransaction 6 "IN" 4 None None; CreateTransaction 7 "OUT" 1 None None;
                 CreateTransaction 2 "ADJUSTMENT" 50 None None]
                (connect empty_db))
     with Return rows => Some rows | Raise _ => None end)
  = Some [("P4", 9); ("P6", 4); ("P3", 2); ("P5", 1); ("P1", 3)].
Proof. reflexivity. Qed.


(** ** Product search *)

Lemma ascii_compare_refl (a : ascii) : Ascii.compare a a = Eq.
Proof. unfold Ascii.compare. apply N.compare_refl. Qed.

Lemma ascii_compare_lt_trans (a b c : ascii) :
  Ascii.compare a b = Lt -> Ascii.compare b c = Lt -> Ascii.compare a c = Lt.
Proof.
  unfold Ascii.compare. rewrite !N.compare_lt_iff. apply N.lt_trans.
Qed.

Lemma string_leb_trans (a b c : string) :
  String.leb a b = true -> String.leb b c = true -> String.leb a c = true.
Proof.
  unfold String.leb. revert b c.
  induction a as [|x a IH]; intros [|y b] [|z c]; simpl; try congruence.
  destruct (Ascii.compare x y) eqn:Exy; try congruence.
  - apply Ascii.compare_eq_iff in Exy. subst y.
    destruct (Ascii.compare x z); try congruence. apply IH.
  - destruct (Ascii.compare y z) eqn:Eyz; try congruence.
    + apply Ascii.compare_eq_iff in Eyz. subst z. rewrite Exy. reflexivity.
    + rewrite (ascii_compare_lt_trans _ _ _ Exy Eyz). reflexivity.
Qed.

Lemma like_empty_suffix (s : string) :
  existsb (Like.like EmptyString) (Like.suffixes s) = true.
Proof.
  induction s as [|c s IH]; [reflexivity|].
  simpl. simpl in IH. exact IH.
Qed.

(** Without wildcards in the term, [term%] matches the strings that begin
    with the term, up to letter case. *)
Lemma like_prefix (term s : string) :
  wildcard_free term = true ->
  Like.like (String.append term "%") s = ci_prefix term s.
Proof.
  revert s. induction term as [|a term IH]; intros s Hw.
  - simpl. change (existsb (Like.like EmptyString) (Like.suffixes s) = true).
    apply like_empty_suffix.
  - simpl in Hw. apply andb_true_iff in Hw. destruct Hw as [Hw Hrest].
    apply andb_true_iff in Hw. destruct Hw as [Hp Hu].
    apply negb_true_iff in Hp, Hu.
    simpl. rewrite Hp, Hu. destruct s as [|b s]; [reflexivity|].
    simpl. rewrite (IH s Hrest). reflexivity.
Qed.

(** ... and [%term%] those that contain it. *)
Lemma like_contains (term s : string) :
  wildcard_free term = true ->
  Like.like (String "%" (String.append term "%")) s = ci_contains term s.
Proof.
  intros Hw. unfold ci_contains.
  change (existsb (Like.like (String.append term "%")) (Like.suffixes s)
          = existsb (ci_prefix term) (Like.suffixes s)).
  induction (Like.suffixes s) as [|u l IH]; simpl; [reflexivity|].
  rewrite (like_prefix term u Hw), IH. reflexivity.
Qed.





Lemma search_products_query_rows (term : string) (d : db) :
  wildcard_free term = true -> wf_db d ->
  search_products_query (String "%" (String.append term "%")) d
  = Sql.order_by
      (fun a b => String.leb (prod_name (pl_product a)) (prod_name (pl_product b)))
      (map (listing_of d) (filter (mentions term) (products d))).
Proof.
  intros Hw Hwf. unfold search_products_query.
  rewrite (products_categories_rows d Hwf), filter_of_map, map_map. cbn [fst snd].
  f_equal. f_equal. apply filter_ext. intros p. unfold mentions, Like.like_opt.
  rewrite (like_contains term (prod_name p) Hw).
  destruct (prod_description p) as [ds|]; [|reflexivity].
  rewrite (like_contains term ds Hw). reflexivity.
Qed.


Example search_laptop :
  option_map (map (fun r => prod_name (pl_product r)))
    (match result_of (search_products "laptop") sample
     with Return rows => Some rows | Raise _ => None end)
  = Some ["Laptop"].
Proof. reflexivity. Qed.

Example search_python_in_description :
  option_map (map (fun r => (prod_name (pl_product r), pl_category_name r)))
    (match result_of (search_products "learn python") sample
     with Return rows => Some rows | Raise _ => None end)
  = Some [("Python Programming Book", Some "Books")].
Proof. reflexivity. Qed.

Example search_absent_token :
  result_of (search_products "NonExistentProduct") sample = Return [].
Proof. reflexivity. Qed.

Example search_underscore :
  option_map (map (fun r => prod_name (pl_product r)))
    (match result_of (search_products "_") sample
     with Return rows => Some rows | Raise _ => None end)
  = Some ["Garden Hose"; "Laptop"; "Python Programming Book"; "T-Shirt"].
Proof. reflexivity. Qed.

Example search_percent_in_the_middle :
  option_map (map (fun r => prod_name (pl_product r)))
    (match result_of (search_products "p%book") sample
     with Return rows => Some rows | Raise _ => None end)
  = Some ["Python Programming Book"].
Proof. reflexivity. Qed.



(** * Further properties of the repository *)

(** ** No method raises; a missing row is reported, not an error *)

Lemma try_except_returns {A} (body : M A) (a : A) (c : conn) :
  exists r, fst (try_except body (fun _ => ret a) c) = Return r.
Proof.
  unfold try_except, ret. destruct (body c) as [[r|e] c']; simpl; eauto.
Qed.

Lemma as_id_returns (m : M (option Z)) (c : conn) :
  (exists r, fst (m c) = Return r) -> exists r, result_of (as_id m) c = Return r.
Proof.
  intros [r Hr]. unfold result_of, as_id, bind, ret.
  destruct (m c) as [[x|e] c']; simpl in *; [eauto | discriminate].
Qed.

Lemma as_done_returns (m : M bool) (c : conn) :
  (exists r, fst (m c) = Return r) -> exists r, result_of (as_done m) c = Return r.
Proof.
  intros [r Hr]. unfold result_of, as_done, bind, ret.
  destruct (m c) as [[x|e] c']; simpl in *; [eauto | discriminate].
Qed.

(** X1.  None of the twelve mutating methods of the repository lets an
    exception out: each call comes back with an ordinary result, whatever
    the arguments and the state of the store. *)
Theorem repository_never_raises (k : call) (c : conn) :
  exists r, result_of (perform k) c = Return r.
Proof.
  destruct k; simpl;
    first [apply as_id_returns | apply as_done_returns]; apply try_except_returns.
Qed.

Lemma after_as_id (m : M (option Z)) (c : conn) : after (as_id m) c = after m c.
Proof.
  unfold after, as_id, bind, ret. destruct (m c) as [[x|e] c']; reflexivity.
Qed.

Lemma after_as_done (m : M bool) (c : conn) : after (as_done m) c = after m c.
Proof.
  unfold after, as_done, bind, ret. destruct (m c) as [[x|e] c']; reflexivity.
Qed.

Lemma run_call_perform (k : call) (c : conn) : run_call k c = after (perform k) c.
Proof.
  destruct k; simpl; first [rewrite after_as_id | rewrite after_as_done]; reflexivity.
Qed.

Lemma result_as_done (m : M bool) (c : conn) (b : bool) :
  fst (m c) = Return b -> result_of (as_done m) c = Return (Done b).
Proof.
  unfold result_of, as_done, bind, ret.
  destruct (m c) as [[x|e] c']; simpl; intros E; [congruence | discriminate].
Qed.

Lemma count_where_absent {A} (key : A -> Z) (k : Z) (l : list A) :
  existsb (fun r => key r =? k) l = false ->
  count_where (fun r => key r =? k) l = 0.
Proof.
  intros H. unfold count_where, Sql.count_star.
  rewrite filter_none; [reflexivity|].
  intros x Hx. destruct (key x =? k) eqn:E; [|reflexivity].
  assert (existsb (fun r => key r =? k) l = true)
    by (apply existsb_exists; exists x; split; assumption).
  congruence.
Qed.

Lemma filter_absent {A} (key : A -> Z) (k : Z) (l : list A) :
  existsb (fun r => key r =? k) l = false ->
  filter (fun r => negb (key r =? k)) l = l.
Proof.
  intros H. apply forallb_filter_id. apply forallb_forall. intros x Hx.
  destruct (key x =? k) eqn:E; [|reflexivity].
  assert (existsb (fun r => key r =? k) l = true)
    by (apply existsb_exists; exists x; split; assumption).
  congruence.
Qed.

Lemma set_categories_same (d : db) : set_categories d (categories d) (seq_categories d) = d.
Proof. destruct d; reflexivity. Qed.
Lemma set_suppliers_same (d : db) : set_suppliers d (suppliers d) (seq_suppliers d) = d.
Proof. destruct d; reflexivity. Qed.
Lemma set_products_same (d : db) : set_products d (products d) (seq_products d) = d.
Proof. destruct d; reflexivity. Qed.
Lemma set_transactions_same (d : db) :
  set_transactions d (inventory_transactions d) (seq_transactions d) = d.
Proof. destruct d; reflexivity. Qed.

Ltac missing_row Hm :=
  apply negb_true_iff in Hm;
  match type of Hm with
  | has_category _ _ = false => unfold has_category in Hm
  | has_supplier _ _ = false => unfold has_supplier in Hm
  | has_product _ _ = false => unfold has_product in Hm
  | has_transaction _ _ = false => unfold has_transaction in Hm
  end.

(** X2.  An update or a delete that names a row which is not in its table
    returns False and leaves every table as it was. *)
Theorem missing_row_is_reported (k : call) (c : conn) :
  target_missing k (store c) = true ->
  result_of (perform k) c = Return (Done false)
  /\ store (after (perform k) c) = store c.
Proof.
  intros Hm. rewrite <- run_call_perform.
  destruct k; simpl in Hm; try discriminate; simpl perform; simpl run_call.
  - (* update_category *)
    pose proof Hm as Hm'. apply negb_true_iff in Hm'. missing_row Hm.
    split; [apply result_as_done|]; unfold_method; unfold update_category_stmt;
      rewrite Hm'; simpl;
      rewrite ?(count_where_absent cat_id _ _ Hm), ?(update_where_absent cat_id _ _ _ Hm);
      [reflexivity | apply set_categories_same].
  - (* delete_category *)
    pose proof Hm as Hm'. apply negb_true_iff in Hm'. missing_row Hm.
    split; [apply result_as_done|]; unfold_method; simpl;
      (destruct (count_where _ _ >? 0); simpl; [reflexivity|]);
      unfold delete_category_stmt; rewrite Hm'; simpl;
      rewrite ?(count_where_absent cat_id _ _ Hm), ?(filter_absent cat_id _ _ Hm);
      [reflexivity | apply set_categories_same].
  - (* update_supplier *)
    missing_row Hm.
    split; [apply result_as_done|]; unfold_method; unfold update_supplier_stmt; simpl;
      rewrite ?(count_where_absent sup_id _ _ Hm), ?(update_where_absent sup_id _ _ _ Hm);
      [reflexivity | apply set_suppliers_same].
  - (* delete_supplier *)
    pose proof Hm as Hm'. apply negb_true_iff in Hm'. missing_row Hm.
    split; [apply result_as_done|]; unfold_method; simpl;
      (destruct (count_where _ _ >? 0); simpl; [reflexivity|]);
      unfold delete_supplier_stmt; rewrite Hm'; simpl;
      rewrite ?(count_where_absent sup_id _ _ Hm), ?(filter_absent sup_id _ _ Hm);
      [reflexivity | apply set_suppliers_same].
  - (* update_product *)
    pose proof Hm as Hm'. apply negb_true_iff in Hm'. missing_row Hm.
    split; [apply result_as_done|]; unfold_method; unfold update_product_stmt;
      rewrite Hm'; simpl;
      rewrite ?(count_where_absent prod_id _ _ Hm), ?(update_where_absent prod_id _ _ _ Hm);
      [reflexivity | apply set_products_same].
  - (* delete_product *)
    pose proof Hm as Hm'. apply negb_true_iff in Hm'. missing_row Hm.
    split; [apply result_as_done|]; unfold_method; simpl;
      (destruct (count_where _ _ >? 0); simpl; [reflexivity|]);
      unfold delete_product_stmt; rewrite Hm'; simpl;
      rewrite ?(count_where_absent prod_id _ _ Hm), ?(filter_absent prod_id _ _ Hm);
      [reflexivity | apply set_products_same].
  - (* update_transaction *)
    pose proof Hm as Hm'. apply negb_true_iff in Hm'. missing_row Hm.
    split; [apply result_as_done|]; unfold_method;
      (destruct (negb (valid_transaction_type transaction_type)); simpl; [reflexivity|]);
      unfold update_transaction_stmt; rewrite Hm'; simpl;
      rewrite ?(count_where_absent tx_id _ _ Hm), ?(update_where_absent tx_id _ _ _ Hm);
      [reflexivity | apply set_transactions_same].
  - (* delete_transaction *)
    missing_row Hm.
    split; [apply result_as_done|]; unfold_method; unfold delete_transaction_stmt; simpl;
      rewrite ?(count_where_absent tx_id _ _ Hm), ?(filter_absent tx_id _ _ Hm);
      [reflexivity | apply set_transactions_same].
Qed.

Lemma missing_row_is_reported_witness :
  (result_of (perform (UpdateCategory 99 "Toys" None)) sample = Return (Done false)
   /\ store (after (perform (UpdateCategory 99 "Toys" None)) sample) = store sample)
  /\ (result_of (perform (DeleteTransaction 99)) sample = Return (Done false)
      /\ store (after (perform (DeleteTransaction 99)) sample) = store sample).
Proof.
  split.
  - apply (missing_row_is_reported (UpdateCategory 99 "Toys" None) sample). reflexivity.
  - apply (missing_row_is_reported (DeleteTransaction 99) sample). reflexivity.
Defined.

(** ** Create, then look up *)

Lemma filter_key_above {A} (key : A -> Z) (l : list A) (seq k : Z) :
  keys_ok (map key l) seq -> seq < k -> filter (fun r => key r =? k) l = [].
Proof.
  intros (_ & _ & Hrange) Hk. apply filter_none. intros x Hx.
  apply Z.eqb_neq. rewrite Forall_forall in Hrange.
  specialize (Hrange (key x) (in_map key l x Hx)). lia.
Qed.

Lemma find_by_key {A} (key : A -> Z) (f : A -> bool) (k : Z) (l : list A) (x : A) :
  NoDup (map key l) ->
  (forall y, f y = true <-> key y = k) ->
  In x l -> key x = k -> find f l = Some x.
Proof.
  intros Hnd Hf Hin Hk. induction l as [|y l IH]; [destruct Hin|].
  inversion Hnd as [|? ? Hnotin Hnd']; subst. simpl.
  destruct Hin as [->|Hin].
  - rewrite (proj2 (Hf x) eq_refl). reflexivity.
  - destruct (f y) eqn:Ey; [|apply IH; assumption].
    exfalso. apply Hnotin. apply Hf in Ey. rewrite Ey.
    change (key x) with ((fun r => key r) x). apply in_map. exact Hin.
Qed.

(** X3.  After create_category has returned an id, get_category_by_id on
    that id returns the row just given (that id, the name, the description);
    the id was in use by no category before, and the lookup of every other
    id gives what it gave before. *)
Theorem create_category_then_get (n : string) (ds : option string) (c : conn) (k : Z) :
  wf_db (store c) ->
  result_of (create_category n ds) c = Return (Some k) ->
  result_of (get_category_by_id k) (after (create_category n ds) c)
  = Return (Some (mk_category k n ds))
  /\ has_category (store c) k = false
  /\ (forall j, j <> k ->
        result_of (get_category_by_id j) (after (create_category n ds) c)
        = result_of (get_category_by_id j) c).
Proof.
  intros Hwf. unfold result_of, after. rewrite create_category_run.
  unfold insert_category. destruct (existsb _ _); simpl; [discriminate|].
  intros E. injection E as <-.
  pose proof (wf_categories _ Hwf) as Hkeys.
  assert (Hnone : filter (fun x => cat_id x =? seq_categories (store c) + 1)
                         (categories (store c)) = [])
    by (apply (filter_key_above cat_id _ _ _ Hkeys); lia).
  unfold get_category_by_id, execute_query. simpl. repeat apply conj.
  - rewrite filter_app, Hnone. simpl. rewrite Z.eqb_refl. reflexivity.
  - unfold has_category. destruct (existsb _ _) eqn:Ex; [|reflexivity].
    apply existsb_exists in Ex. destruct Ex as (x & Hx & Hk).
    assert (Hin : In x (filter (fun x => cat_id x =? seq_categories (store c) + 1)
                               (categories (store c))))
      by (apply filter_In; split; assumption).
    rewrite Hnone in Hin. destruct Hin.
  - intros j Hj. rewrite filter_app. simpl.
    apply not_eq_sym, Z.eqb_neq in Hj. rewrite Hj, app_nil_r. reflexivity.
Qed.

Lemma create_category_then_get_witness :
  result_of (get_category_by_id 5)
            (after (create_category "Test Category" (Some "Test Description")) sample)
  = Return (Some (mk_category 5 "Test Category" (Some "Test Description"))).
Proof.
  apply (create_category_then_get "Test Category" (Some "Test Description") sample 5);
    [exact wf_sample | reflexivity].
Defined.

Lemma get_product_by_id_rows (k : Z) (d : db) :
  wf_db d ->
  hd_error (map select_listing
                (filter (fun pc => prod_id (fst pc) =? k) (products_categories d)))
  = hd_error (map (listing_of d) (filter (fun p => prod_id p =? k) (products d))).
Proof.
  intros Hwf. rewrite (products_categories_rows d Hwf), filter_of_map, map_map.
  reflexivity.
Qed.

(** X4.  After create_product has returned an id, get_product_by_id on that
    id returns the product as given, joined with the name of the category
    its category_id names (no name for a NULL category_id); the lookup of
    every other id gives what it gave before. *)
Theorem create_product_then_get
        (n : string) (ds : option string) (cid : option Z) (price : Q) (rl : Z)
        (c : conn) (k : Z) :
  wf_db (store c) ->
  result_of (create_product n ds cid price rl) c = Return (Some k) ->
  let row := mk_product k n ds cid price rl in
  exists cname,
    result_of (get_product_by_id k) (after (create_product n ds cid price rl) c)
    = Return (Some (mk_listing row cname))
    /\ (cid = None -> cname = None)
    /\ (forall cat, In cat (categories (store c)) -> cid = Some (cat_id cat) ->
                    cname = Some (cat_name cat))
    /\ (forall j, j <> k ->
          result_of (get_product_by_id j) (after (create_product n ds cid price rl) c)
          = result_of (get_product_by_id j) c).
Proof.
  intros Hwf Hres row.
  assert (Hwf' : wf_db (store (after (create_product n ds cid price rl) c)))
    by (apply (wf_run_call (CreateProduct n ds cid price rl) c Hwf)).
  revert Hres Hwf'. unfold result_of, after. rewrite create_product_run.
  unfold insert_product. destruct (fk_ok _ _); simpl; [|discriminate].
  intros E Hwf'. injection E as <-.
  pose proof (wf_products _ Hwf) as Hkeys.
  assert (Hnone : filter (fun x => prod_id x =? seq_products (store c) + 1)
                         (products (store c)) = [])
    by (apply (filter_key_above prod_id _ _ _ Hkeys); lia).
  exists (category_name_of (category_of (store c) row)).
  unfold get_product_by_id, execute_query. simpl. repeat apply conj.
  - rewrite (get_product_by_id_rows _ _ Hwf'). simpl.
    rewrite filter_app, Hnone. simpl. rewrite Z.eqb_refl. reflexivity.
  - intros ->. unfold category_of. simpl.
    induction (categories (store c)) as [|x l IH]; [reflexivity | exact IH].
  - intros cat Hcat ->. unfold category_of. simpl.
    destruct (wf_categories _ Hwf) as (_ & Hnd & _).
    rewrite (find_by_key cat_id _ (cat_id cat) _ cat Hnd); auto.
    intros y. rewrite Z.eqb_eq. split; congruence.
  - intros j Hj.
    rewrite (get_product_by_id_rows _ _ Hwf'), (get_product_by_id_rows _ _ Hwf). simpl.
    rewrite filter_app. simpl.
    apply not_eq_sym, Z.eqb_neq in Hj. rewrite Hj, app_nil_r. reflexivity.
Qed.

Lemma create_product_then_get_witness :
  exists cname,
    result_of (get_product_by_id 5)
              (after (create_product "Test Product" (Some "Test Description") (Some 3)
                                     (9999 # 100) 5) sample)
    = Return (Some (mk_listing
                      (mk_product 5 "Test Product" (Some "Test Description") (Some 3)
                                  (9999 # 100) 5) cname))
    /\ cname = Some "Books".
Proof.
  destruct (create_product_then_get "Test Product" (Some "Test Description") (Some 3)
                                    (9999 # 100) 5 sample 5 wf_sample eq_refl)
    as (cname & Hget & _ & Hcat & _).
  exists cname. split; [exact Hget|].
  apply (Hcat (mk_category 3 "Books" (Some "Books and publications")));
    [vm_compute; tauto | reflexivity].
Defined.

(** ** Looking a transaction up *)



Lemma filter_key_single {A} (key : A -> Z) (l : list A) (x : A) :
  NoDup (map key l) -> In x l -> filter (fun y => key y =? key x) l = [x].
Proof.
  intros Hnd Hin.
  rewrite (filter_unique_key key (fun y => key y =? key x) (key x) l Hnd)
    by (intros b Hb; apply Z.eqb_eq; exact Hb).
  rewrite (find_by_key key _ (key x) l x Hnd); auto.
  intros y. apply Z.eqb_eq.
Qed.



Example sample_transaction_five :
  result_of (get_transaction_by_id 5) sample
  = Return (Some (mk_transaction_listing
                    (mk_transaction 5 1 "OUT" 2 None (Some "Customer sale"))
                    "Laptop" None)).
Proof. reflexivity. Qed.


(** ** Listings *)

(** X6.  get_categories and get_suppliers return every row of their table,
    each once, in ascending order of name. *)
Theorem listings_sorted_by_name (c : conn) :
  (exists rows,
      result_of get_categories c = Return rows
      /\ Permutation rows (categories (store c))
      /\ StronglySorted (fun a b => String.leb (cat_name a) (cat_name b) = true) rows)
  /\ (exists rows,
         result_of get_suppliers c = Return rows
         /\ Permutation rows (suppliers (store c))
         /\ StronglySorted (fun a b => String.leb (sup_name a) (sup_name b) = true) rows).
Proof.
  split; eexists; (split; [reflexivity|]); split;
    try apply order_by_perm.
  - apply (order_by_sorted (fun a b => String.leb (cat_name a) (cat_name b))).
    + intros a b. apply String.leb_total.
    + intros a b e. apply string_leb_trans.
  - apply (order_by_sorted (fun a b => String.leb (sup_name a) (sup_name b))).
    + intros a b. apply String.leb_total.
    + intros a b e. apply string_leb_trans.
Qed.

Example sample_categories :
  option_map (map cat_name)
    (match result_of get_categories sample with Return r => Some r | Raise _ => None end)
  = Some ["Books"; "Clothing"; "Electronics"; "Home & Garden"].
Proof. reflexivity. Qed.

Lemma get_products_rows (c : conn) :
  wf_db (store c) ->
  result_of get_products c
  = Return (Sql.order_by
              (fun a b => String.leb (prod_name (pl_product a)) (prod_name (pl_product b)))
              (map (listing_of (store c)) (products (store c)))).
Proof.
  intros Hwf. unfold result_of, get_products, execute_query. simpl.
  rewrite (products_categories_rows _ Hwf), map_map. reflexivity.
Qed.

(** X7.  In a store that satisfies the schema constraints, get_products
    returns one line per product (the join with categories neither drops
    nor repeats a product), each with the name of its category, in
    ascending order of product name. *)
Theorem get_products_one_line_each (c : conn) :
  wf_db (store c) ->
  exists rows,
    result_of get_products c = Return rows
    /\ Permutation rows (map (listing_of (store c)) (products (store c)))
    /\ StronglySorted
         (fun a b => String.leb (prod_name (pl_product a)) (prod_name (pl_product b)) = true)
         rows.
Proof.
  intros Hwf. rewrite (get_products_rows c Hwf). eexists. split; [reflexivity|]. split.
  - apply order_by_perm.
  - apply (order_by_sorted
             (fun a b => String.leb (prod_name (pl_product a)) (prod_name (pl_product b)))).
    + intros a b. apply String.leb_total.
    + intros a b e. apply string_leb_trans.
Qed.

Lemma get_products_one_line_each_witness :
  exists rows,
    result_of get_products sample = Return rows
    /\ Permutation rows (map (listing_of (store sample)) (products (store sample)))
    /\ StronglySorted
         (fun a b => String.leb (prod_name (pl_product a)) (prod_name (pl_product b)) = true)
         rows.
Proof. exact (get_products_one_line_each sample wf_sample). Defined.

Lemma mentions_empty_term (p : product) : mentions "" p = true.
Proof.
  unfold mentions, ci_contains. destruct (prod_name p); reflexivity.
Qed.

(** X8.  Searching for the empty term is listing: in a store that satisfies
    the schema constraints, search_products on the empty text returns the
    very list get_products returns. *)
Theorem search_empty_term_lists_all (c : conn) :
  wf_db (store c) ->
  result_of (search_products "") c = result_of get_products c.
Proof.
  intros Hwf. rewrite (get_products_rows c Hwf).
  unfold result_of, search_products, execute_query. cbn [fst String.append].
  pose proof (search_products_query_rows "" (store c) eq_refl Hwf) as Hq.
  cbn [String.append] in Hq. rewrite Hq.
  rewrite (forallb_filter_id (mentions "")); [reflexivity|].
  apply forallb_forall. intros p _. apply mentions_empty_term.
Qed.

Lemma search_empty_term_lists_all_witness :
  result_of (search_products "") sample = result_of get_products sample.
Proof. exact (search_empty_term_lists_all sample wf_sample). Defined.

(** ** Current inventory *)






(** ** Updates *)

Section FilterUpdate.
Context {A : Type} (key : A -> Z) (f : A -> A).
Hypothesis key_kept : forall r, key (f r) = key r.

Lemma filter_update_where_same (k : Z) (l : list A) :
  filter (fun r => key r =? k) (update_where key k f l)
  = map f (filter (fun r => key r =? k) l).
Proof.
  unfold update_where. induction l as [|x l IH]; simpl; [reflexivity|].
  destruct (key x =? k) eqn:E; simpl.
  - rewrite key_kept, E. simpl. rewrite IH. reflexivity.
  - rewrite E. exact IH.
Qed.

Lemma filter_update_where_other (j k : Z) (l : list A) :
  j <> k ->
  filter (fun r => key r =? j) (update_where key k f l)
  = filter (fun r => key r =? j) l.
Proof.
  intros Hj. unfold update_where. induction l as [|x l IH]; simpl; [reflexivity|].
  destruct (Z.eqb_spec (key x) k) as [E|E]; simpl.
  - rewrite key_kept. destruct (Z.eqb_spec (key x) j) as [E'|E']; [congruence|].
    exact IH.
  - destruct (key x =? j); rewrite IH; reflexivity.
Qed.

End FilterUpdate.

Lemma present_filter {A} (key : A -> Z) (k : Z) (l : list A) :
  NoDup (map key l) ->
  existsb (fun r => key r =? k) l = true ->
  exists x, In x l /\ key x = k /\ filter (fun r => key r =? k) l = [x].
Proof.
  intros Hnd Hex. apply existsb_exists in Hex. destruct Hex as (x & Hx & Hk).
  apply Z.eqb_eq in Hk. exists x. split; [exact Hx|]. split; [exact Hk|].
  subst k. apply filter_key_single; assumption.
Qed.

Lemma update_category_run (k : Z) (n : string) (ds : option string) (c : conn) :
  update_category k n ds c
  = match update_category_stmt k n ds (store c) with
    | inl _ => (Return false,
                mk_conn (store c) (lastrowid c) (rowcount c) (S (executed c)))
    | inr f => (Return (eff_rowcount f >? 0),
                mk_conn (eff_db f) (Sql.coalesce (eff_lastrowid f) (lastrowid c))
                        (eff_rowcount f) (S (executed c)))
    end.
Proof. unfold_method. destruct (update_category_stmt k n ds (store c)); reflexivity. Qed.

(** X11.  update_category on an existing category: when another category
    already has the new name the call returns False and nothing changes
    (keeping its own name is no clash); otherwise it returns True, the
    category then reads back with the new name and description under the
    same id, and every other category and all products are as before. *)
Theorem update_category_outcome (k : Z) (n : string) (ds : option string) (c : conn) :
  wf_db (store c) ->
  has_category (store c) k = true ->
  let clash := existsb (fun x => String.eqb (cat_name x) n && negb (cat_id x =? k))
                       (categories (store c)) in
  let c' := after (update_category k n ds) c in
  (clash = true ->
   result_of (update_category k n ds) c = Return false /\ store c' = store c)
  /\ (clash = false ->
      result_of (update_category k n ds) c = Return true
      /\ result_of (get_category_by_id k) c' = Return (Some (mk_category k n ds))
      /\ (forall j, j <> k ->
            result_of (get_category_by_id j) c' = result_of (get_category_by_id j) c)
      /\ products (store c') = products (store c)).
Proof.
  intros Hwf Hhas clash c'. subst c'. unfold result_of, after.
  rewrite update_category_run. unfold update_category_stmt. rewrite Hhas. simpl.
  fold clash. split; intros Hc; rewrite Hc; simpl; [split; reflexivity|].
  destruct (wf_categories _ Hwf) as (_ & Hnd & _).
  unfold has_category in Hhas.
  destruct (present_filter cat_id k _ Hnd Hhas) as (x & Hx & Hk & Hfilter).
  repeat apply conj.
  - f_equal. unfold count_where, Sql.count_star. rewrite Hfilter. reflexivity.
  - unfold get_category_by_id, execute_query. simpl.
    rewrite filter_update_where_same by reflexivity.
    rewrite Hfilter. simpl. rewrite Hk. reflexivity.
  - intros j Hj. unfold get_category_by_id, execute_query. simpl.
    rewrite filter_update_where_other by (reflexivity || exact Hj). reflexivity.
  - reflexivity.
Qed.

Lemma update_category_outcome_witness :
  (result_of (update_category 1 "Books" None) sample = Return false
   /\ store (after (update_category 1 "Books" None) sample) = store sample)
  /\ (result_of (update_category 1 "Electronics" None) sample = Return true
      /\ result_of (get_category_by_id 1) (after (update_category 1 "Electronics" None) sample)
         = Return (Some (mk_category 1 "Electronics" None))).
Proof.
  split.
  - apply (update_category_outcome 1 "Books" None sample wf_sample eq_refl). reflexivity.
  - destruct (update_category_outcome 1 "Electronics" None sample wf_sample eq_refl)
      as [_ H].
    destruct (H eq_refl) as (H1 & H2 & _). split; assumption.
Defined.







Lemma update_transaction_run (k p : Z) (ty : string) (q : Z) (s : option Z)
      (n : option string) (c : conn) :
  valid_transaction_type ty = true ->
  update_transaction k p ty q s n c
  = match update_transaction_stmt k p ty q s n (store c) with
    | inl _ => (Return false,
                mk_conn (store c) (lastrowid c) (rowcount c) (S (executed c)))
    | inr f => (Return (eff_rowcount f >? 0),
                mk_conn (eff_db f) (Sql.coalesce (eff_lastrowid f) (lastrowid c))
                        (eff_rowcount f) (S (executed c)))
    end.
Proof.
  intros H. unfold_method. rewrite H. simpl.
  destruct (update_transaction_stmt k p ty q s n (store c)); reflexivity.
Qed.



Example moving_a_sale_to_another_product :
  let c' := after (update_transaction 5 2 "OUT" 2 None None) sample in
  result_of (get_product_stock 1) c' = Return 10
  /\ result_of (get_product_stock 2) c' = Return 43.
Proof. split; reflexivity. Qed.

(** ** The ledger is per product *)

(** X14.  Recording or deleting a transaction of one product leaves the
    stock of every other product as it was, whether or not the call
    succeeds. *)
Theorem other_products_stock_untouched (c : conn) :
  wf_db (store c) ->
  (forall p ty q s n x,
      x <> p ->
      result_of (get_product_stock x) (after (create_transaction p ty q s n) c)
      = result_of (get_product_stock x) c)
  /\ (forall t x,
        In t (inventory_transactions (store c)) ->
        x <> tx_product_id t ->
        result_of (get_product_stock x) (after (delete_transaction (tx_id t)) c)
        = result_of (get_product_stock x) c).
Proof.
  intros Hwf. unfold result_of, after. split.
  - intros p ty q s n x Hx. rewrite !get_product_stock_run. simpl. f_equal.
    destruct (valid_transaction_type ty) eqn:Hty.
    + rewrite (create_transaction_good_type _ _ _ _ _ _ Hty).
      unfold insert_transaction. rewrite Hty. simpl.
      destruct (has_product (store c) p && fk_ok (has_supplier (store c)) s);
        simpl; [|reflexivity].
      unfold stock. simpl. rewrite !quantity_sum_snoc. simpl.
      apply not_eq_sym, Z.eqb_neq in Hx. rewrite Hx. simpl. lia.
    + rewrite (create_transaction_bad_type _ _ _ _ _ _ Hty). reflexivity.
  - intros t x Hin Hx. rewrite delete_transaction_run, !get_product_stock_run.
    simpl. f_equal.
    destruct (wf_transactions _ Hwf) as (_ & Hnd & _).
    unfold stock. simpl. rewrite !(quantity_sum_delete _ _ _ t Hnd Hin).
    apply not_eq_sym, Z.eqb_neq in Hx. rewrite Hx. simpl. lia.
Qed.

Lemma other_products_stock_untouched_witness :
  result_of (get_product_stock 2) (after (create_transaction 1 "OUT" 100 None None) sample)
  = result_of (get_product_stock 2) sample.
Proof.
  destruct (other_products_stock_untouched sample wf_sample) as [H _].
  apply H. discriminate.
Defined.

(** ** Keys are handed out once *)

Ltac seq_step stmt :=
  let E := fresh "E" in
  destruct stmt as [?|?] eqn:E; simpl; [lia|];
  unfold insert_category, update_category_stmt, delete_category_stmt,
    insert_supplier, update_supplier_stmt, delete_supplier_stmt,
    insert_product, update_product_stmt, delete_product_stmt,
    insert_transaction, update_transaction_stmt, delete_transaction_stmt in E;
  repeat match type of E with
         | (if ?b then _ else _) = _ => destruct b; try discriminate E
         end;
  inversion E; subst; simpl; lia.

Lemma seq_monotone_call (k : call) (c : conn) :
  seq_categories (store c) <= seq_categories (store (run_call k c))
  /\ seq_suppliers (store c) <= seq_suppliers (store (run_call k c))
  /\ seq_products (store c) <= seq_products (store (run_call k c))
  /\ seq_transactions (store c) <= seq_transactions (store (run_call k c)).
Proof.
  destruct k; unfold run_call; unfold_method.
  - seq_step (insert_category name description (store c)).
  - seq_step (update_category_stmt category_id name description (store c)).
  - simpl. destruct (count_where _ _ >? 0); simpl; [lia|].
    seq_step (delete_category_stmt category_id (store c)).
  - seq_step (insert_supplier name contact_info address (store c)).
  - seq_step (update_supplier_stmt supplier_id name contact_info address (store c)).
  - simpl. destruct (count_where _ _ >? 0); simpl; [lia|].
    seq_step (delete_supplier_stmt supplier_id (store c)).
  - seq_step (insert_product name description category_id price reorder_level (store c)).
  - seq_step (update_product_stmt product_id name description category_id price
                                  reorder_level (store c)).
  - simpl. destruct (count_where _ _ >? 0); simpl; [lia|].
    seq_step (delete_product_stmt product_id (store c)).
  - destruct (negb (valid_transaction_type transaction_type)); simpl; [lia|].
    seq_step (insert_transaction product_id transaction_type quantity supplier_id
                                 notes (store c)).
  - destruct (negb (valid_transaction_type transaction_type)); simpl; [lia|].
    seq_step (update_transaction_stmt transaction_id product_id transaction_type
                                      quantity supplier_id notes (store c)).
  - seq_step (delete_transaction_stmt transaction_id (store c)).
Qed.

Lemma seq_monotone_calls (ks : list call) (c : conn) :
  seq_categories (store c) <= seq_categories (store (run_calls ks c))
  /\ seq_suppliers (store c) <= seq_suppliers (store (run_calls ks c))
  /\ seq_products (store c) <= seq_products (store (run_calls ks c))
  /\ seq_transactions (store c) <= seq_transactions (store (run_calls ks c)).
Proof.
  revert c. induction ks as [|k ks IH]; intros c; simpl; [lia|].
  pose proof (seq_monotone_call k c). pose proof (IH (run_call k c)). lia.
Qed.

Lemma create_returns_next (r : creation) (c : conn) (k : Z) :
  result_of (create r) c = Return (Some k) -> k = table_seq r (store c) + 1.
Proof.
  unfold result_of.
  destruct r as [n ds|n ci a|n ds cid price rl|p ty q s n]; unfold create, table_seq.
  - rewrite create_category_run. unfold insert_category.
    destruct (existsb _ _); simpl; congruence.
  - rewrite create_supplier_run. simpl. congruence.
  - rewrite create_product_run. unfold insert_product.
    destruct (fk_ok _ _); simpl; congruence.
  - destruct (valid_transaction_type ty) eqn:Hty.
    + rewrite (create_transaction_good_type _ _ _ _ _ _ Hty). unfold insert_transaction.
      rewrite Hty. simpl. destruct (_ && _); simpl; congruence.
    + rewrite (create_transaction_bad_type _ _ _ _ _ _ Hty). simpl. congruence.
Qed.

(** X15.  A key is never handed out twice: from a state that satisfies the
    schema constraints, after any further sequence of repository calls
    (deletions included), the id a create method returns is greater than
    every key its table held in that state. *)
Theorem keys_never_reused (r : creation) (ks : list call) (c : conn) (k : Z) :
  wf_db (store c) ->
  result_of (create r) (run_calls ks c) = Return (Some k) ->
  Forall (fun k0 => k0 < k) (table_keys r (store c)).
Proof.
  intros Hwf Hres. apply create_returns_next in Hres. subst k.
  pose proof (seq_monotone_calls ks c) as (H1 & H2 & H3 & H4).
  destruct r; simpl.
  - destruct (wf_categories _ Hwf) as (_ & _ & Hr).
    eapply Forall_impl; [|exact Hr]. simpl. intros; lia.
  - destruct (wf_suppliers _ Hwf) as (_ & _ & Hr).
    eapply Forall_impl; [|exact Hr]. simpl. intros; lia.
  - destruct (wf_products _ Hwf) as (_ & _ & Hr).
    eapply Forall_impl; [|exact Hr]. simpl. intros; lia.
  - destruct (wf_transactions _ Hwf) as (_ & _ & Hr).
    eapply Forall_impl; [|exact Hr]. simpl. intros; lia.
Qed.

(** The sixth transaction is deleted, then a new one is recorded: it gets
    id 7, not the freed id 6. *)
Lemma keys_never_reused_witness :
  Forall (fun k0 => k0 < 7) (table_keys (NewTransaction 1 "IN" 1 None None) (store sample)).
Proof.
  apply (keys_never_reused (NewTransaction 1 "IN" 1 None None)
                           [DeleteTransaction 6] sample 7);
    [exact wf_sample | reflexivity].
Defined.

Lemma reachable_wf_witness : wf_db (store sample).
Proof.
  apply reachable_wf. unfold reachable, sample. exists sample_calls. reflexivity.
Defined.

(** ** The supplier and category reports *)








(** The sample store with one more supplier, which has no transaction. *)
Example sample_supplier_report :
  option_map (map (fun r => (sr_supplier_name r, sr_transaction_count r,
                             sr_total_received r, sr_products_handled r)))
    (match result_of supplier_report_rows
             (run_call (CreateSupplier "Idle Ltd" None None) sample)
     with Return rows => Some rows | Raise _ => None end)
  = Some [("TechCorp Inc.", 1, Some 10, 1); ("Fashion Forward", 1, Some 50, 1);
          ("BookWorld", 1, Some 25, 1); ("Home Depot", 1, Some 30, 1);
          ("Idle Ltd", 0, Some 0, 0)].
Proof. vm_compute. reflexivity. Qed.












(** The sample store with one more category, which has no product. *)
Example sample_category_report :
  option_map (map (fun r => (cr_category_name r, cr_product_count r, cr_total_stock r)))
    (match result_of category_report_rows
             (run_call (CreateCategory "Toys" None) sample)
     with Return rows => Some rows | Raise _ => None end)
  = Some [("Electronics", 1, Some 8); ("Books", 1, Some 25);
          ("Home & Garden", 1, Some 30); ("Clothing", 1, Some 45);
          ("Toys", 0, None)].
Proof. vm_compute. reflexivity. Qed.


(** ** The low stock report *)




(** ** Rejected updates of a transaction; a product just created *)

(** X20.  update_transaction on an existing transaction is refused in two
    ways: a type outside the enumeration returns False before any statement
    reaches the store, the connection being exactly as it was; a product
    that does not exist, or a supplier given but not existing, returns False
    with every table unchanged. *)
Theorem update_transaction_rejected
        (c : conn) (t : transaction) (p : Z) (ty : string) (q : Z)
        (s : option Z) (n : option string) :
  In t (inventory_transactions (store c)) ->
  (valid_transaction_type ty = false ->
   update_transaction (tx_id t) p ty q s n c = (Return false, c))
  /\ (valid_transaction_type ty = true ->
      has_product (store c) p && fk_ok (has_supplier (store c)) s = false ->
      result_of (update_transaction (tx_id t) p ty q s n) c = Return false
      /\ store (after (update_transaction (tx_id t) p ty q s n) c) = store c).
Proof.
  intros Hin. split.
  - intros Hty. unfold_method. rewrite Hty. reflexivity.
  - intros Hty Hfk. unfold result_of, after.
    rewrite (update_transaction_run _ _ _ _ _ _ _ Hty).
    unfold update_transaction_stmt. rewrite Hty, Hfk.
    assert (Hhas : has_transaction (store c) (tx_id t) = true).
    { apply existsb_exists. exists t. split; [exact Hin | apply Z.eqb_refl]. }
    rewrite Hhas. simpl. split; reflexivity.
Qed.

Lemma update_transaction_rejected_witness :
  update_transaction 5 1 "SOLD" 2 None None sample = (Return false, sample)
  /\ result_of (update_transaction 5 99 "OUT" 2 None None) sample = Return false.
Proof.
  assert (Hin : In (mk_transaction 5 1 "OUT" 2 None (Some "Customer sale"))
                   (inventory_transactions (store sample)))
    by (vm_compute; do 4 right; left; reflexivity).
  split.
  - apply (update_transaction_rejected
             sample (mk_transaction 5 1 "OUT" 2 None (Some "Customer sale"))
             1 "SOLD" 2 None None Hin).
    reflexivity.
  - apply (update_transaction_rejected
             sample (mk_transaction 5 1 "OUT" 2 None (Some "Customer sale"))
             99 "OUT" 2 None None Hin);
      [reflexivity | vm_compute; reflexivity].
Defined.





